(** * SoftLayer CDN manager and the [cdn purge] command

    A shallow embedding of [SoftLayer/managers/cdn.py] (class [CDNManager])
    and of [SoftLayer/CLI/cdn/purge.py] (command [cli]), with the properties
    of the usage-metrics date window, of the origin-creation record and of the
    result unwrapping proved over it.

    Python values are an inductive type, a [dict] is an association list in
    insertion order, exceptions are the left summand of a sum, and the
    effects of the code (remote procedure calls, reads of the wall clock and
    tables written to the output) are threaded through a state-and-exception
    monad over [World]. *)

From Stdlib Require Import ZArith String Ascii List Bool Lia.
Import ListNotations.

Open Scope string_scope.
Open Scope Z_scope.

(** ** Python values *)

#[warnings="-register-all"]
Inductive value : Type :=
| VNone
| VBool (b : bool)
| VInt (n : Z)
| VStr (s : string)
| VList (xs : list value)
| VDict (kvs : list (string * value)).

(** [bool(v)]: the truth value Python gives [v] in an [if]. *)
Definition truthy (v : value) : bool :=
  match v with
  | VNone => false
  | VBool b => b
  | VInt n => negb (n =? 0)
  | VStr s => negb (String.eqb s "")
  | VList xs => match xs with [] => false | _ :: _ => true end
  | VDict kvs => match kvs with [] => false | _ :: _ => true end
  end.

(** [v == 'literal']: a value equals a [str] literal exactly when it is a
    [str] with the same characters. *)
Definition eq_str (v : value) (lit : string) : bool :=
  match v with
  | VStr s => String.eqb s lit
  | _ => false
  end.

(** The name Python prints for the class of a value. *)
Definition type_name (v : value) : string :=
  match v with
  | VNone => "NoneType"
  | VBool _ => "bool"
  | VInt _ => "int"
  | VStr _ => "str"
  | VList _ => "list"
  | VDict _ => "dict"
  end.

(** ** Dictionaries with string keys *)

Definition dict := list (string * value).

Fixpoint dict_get (d : dict) (k : string) : option value :=
  match d with
  | [] => None
  | (k', v) :: rest => if String.eqb k' k then Some v else dict_get rest k
  end.

(** [d[k] = v]: overwrite in place when the key exists, append otherwise. *)
Fixpoint dict_set (d : dict) (k : string) (v : value) : dict :=
  match d with
  | [] => [(k, v)]
  | (k', v') :: rest =>
      if String.eqb k' k then (k', v) :: rest else (k', v') :: dict_set rest k v
  end.

Definition dict_has (d : dict) (k : string) : bool :=
  match dict_get d k with Some _ => true | None => false end.

(** ** Exceptions *)

Inductive exn : Type :=
| SoftLayerError (msg : string)
| ValueError (msg : string)
| TypeError (msg : string)
| IndexError (msg : string)
| KeyError (key : value)
| OtherError (cls msg : string).

(** What an expression evaluates to: an exception raised or a value. *)
Definition outcome (A : Type) : Type := (exn + A)%type.

(** ** Subscripting, [obj[key]] *)

Definition list_index (xs : list value) (i : Z) : outcome value :=
  let n := Z.of_nat (length xs) in
  let j := if i <? 0 then i + n else i in
  if (j <? 0) || (n <=? j) then inl (IndexError "list index out of range")
  else match nth_error xs (Z.to_nat j) with
       | Some x => inr x
       | None => inl (IndexError "list index out of range")
       end.

Definition str_index (s : string) (i : Z) : outcome value :=
  let n := Z.of_nat (String.length s) in
  let j := if i <? 0 then i + n else i in
  if (j <? 0) || (n <=? j) then inl (IndexError "string index out of range")
  else match String.get (Z.to_nat j) s with
       | Some c => inr (VStr (String c EmptyString))
       | None => inl (IndexError "string index out of range")
       end.

Definition int_of_bool (b : bool) : Z := if b then 1 else 0.

Definition getitem (obj key : value) : outcome value :=
  match obj with
  | VList xs =>
      match key with
      | VInt i => list_index xs i
      | VBool b => list_index xs (int_of_bool b)
      | _ => inl (TypeError ("list indices must be integers or slices, not "
                               ++ type_name key))
      end
  | VStr s =>
      match key with
      | VInt i => str_index s i
      | VBool b => str_index s (int_of_bool b)
      | _ => inl (TypeError ("string indices must be integers, not '"
                               ++ type_name key ++ "'"))
      end
  | VDict kvs =>
      match key with
      | VStr k => match dict_get kvs k with
                  | Some v => inr v
                  | None => inl (KeyError key)
                  end
      | VList _ | VDict _ =>
          inl (TypeError ("unhashable type: '" ++ type_name key ++ "'"))
      | _ => inl (KeyError key)
      end
  | _ => inl (TypeError ("'" ++ type_name obj ++ "' object is not subscriptable"))
  end.

(** ** The world: remote calls made, clock reads, tables written *)

Record Call : Type := mkCall {
  service : string;
  method : string;
  args : list value;
  kwargs : dict
}.

Record Table : Type := mkTable {
  columns : list string;
  rows : list (list value)
}.

Record World : Type := mkWorld {
  ticks : nat;            (* reads of the wall clock made so far *)
  trace : list Call;      (* remote calls issued so far, oldest first *)
  output : list Table     (* tables handed to [env.fout], oldest first *)
}.

(** ** The monad of the code: state passing with exceptions *)

Definition M (A : Type) : Type := World -> outcome A * World.

Definition ret {A} (a : A) : M A := fun w => (inr a, w).

Definition raise {A} (e : exn) : M A := fun w => (inl e, w).

Definition bind {A B} (m : M A) (k : A -> M B) : M B :=
  fun w => match m w with
           | (inr a, w') => k a w'
           | (inl e, w') => (inl e, w')
           end.

Definition lift {A} (r : outcome A) : M A := fun w => (r, w).

(** [try: body except ...: handler]. *)
Definition try_except {A} (body : M A) (handler : exn -> M A) : M A :=
  fun w => match body w with
           | (inr a, w') => (inr a, w')
           | (inl e, w') => handler e w'
           end.

Declare Scope py_scope.
Delimit Scope py_scope with py.
Notation "x <- m ;; k" := (bind m (fun x => k))
  (at level 61, m at next level, right associativity) : py_scope.
Notation "' p <- m ;; k" := (bind m (fun x => match x with p => k end))
  (at level 61, p pattern, m at next level, right associativity) : py_scope.
Open Scope py_scope.

(** Remote calls issued by a computation started in [w]. *)
Definition calls_of {A} (m : M A) (w : World) : list Call :=
  skipn (length (trace w)) (trace (snd (m w))).

(** ** Dates

    A naive [datetime] is a point of the zone-less time line, counted in
    microseconds from 1970-01-01 00:00:00; [timedelta(days=d)] is [d] days of
    that unit. *)

Definition datetime : Type := Z.

Definition timedelta_days (d : Z) : Z := d * 86400 * 1000000.

(** The services the manager binds in [__init__]. *)
Record CDNManager : Type := mkCDNManager {
  cdn_configuration : string;
  cdn_path : string;
  cdn_metrics : string;
  cdn_purge : string
}.

(** [CDNManager(client)]: [client[name]] only builds a handle on the named
    service, it calls nothing. *)
Definition CDNManager_init : CDNManager :=
  {| cdn_configuration := "Network_CdnMarketplace_Configuration_Mapping";
     cdn_path := "SoftLayer_Network_CdnMarketplace_Configuration_Mapping_Path";
     cdn_metrics := "Network_CdnMarketplace_Metrics";
     cdn_purge := "SoftLayer_Network_CdnMarketplace_Configuration_Cache_Purge" |}.

(** An argument with a default in the signature: [None] when the caller
    leaves it out. *)
Definition arg_or (given : option value) (default : value) : value :=
  match given with Some v => v | None => default end.

Section Manager.

(** The collaborators of the manager, outside the repository's sources:
    the remote service behind the RPC client (its answer may depend on the
    calls made before), the wall clock (its successive readings),
    [datetime.strptime] on strings, and [utils.timestamp]. *)
Variable remote : list Call -> Call -> outcome value.
Variable wall_clock : nat -> datetime.
Variable strptime : string -> string -> outcome datetime.
Variable timestamp : datetime -> Z.

(** A method of a service called through the client: one round trip,
    recorded in the trace whether it answers or raises. *)
Definition remote_call (svc meth : string) (a : list value) (kw : dict)
  : M value :=
  fun w =>
    let c := mkCall svc meth a kw in
    (remote (trace w) c,
     mkWorld (ticks w) (trace w ++ [c]) (output w)).

(** [datetime.now()]. *)
Definition datetime_now : M datetime :=
  fun w => (inr (wall_clock (ticks w)),
            mkWorld (S (ticks w)) (trace w) (output w)).

(** Modelled from the spec: [utils.days_to_datetime] is not among the
    sources; the spec has the default window start at "now - days" and end
    at "now", each taken from the wall clock when it is computed. *)
Definition days_to_datetime (days : Z) : M datetime :=
  now <- datetime_now ;;
  ret (now - timedelta_days days).

(** [datetime.strptime(v, fmt)] on an arbitrary value: only a [str] is
    parsed. *)
Definition strptime_value (v : value) (fmt : string) : outcome datetime :=
  match v with
  | VStr s => strptime s fmt
  | _ => inl (TypeError ("strptime() argument 1 must be str, not "
                           ++ type_name v))
  end.

Definition list_cdn (self : CDNManager) (kw : dict) : M value :=
  remote_call (cdn_configuration self) "listDomainMappings" [] kw.

Definition get_cdn (self : CDNManager) (unique_id : value) (kw : dict)
  : M value :=
  cdn_list <- remote_call (cdn_configuration self)
                "listDomainMappingByUniqueId" [unique_id] kw ;;
  lift (getitem cdn_list (VInt 0)).

Definition get_origins (self : CDNManager) (unique_id : value) (kw : dict)
  : M value :=
  remote_call (cdn_path self) "listOriginPath" [unique_id] kw.

(** The keyword arguments of [add_origin]; [None] is an argument the
    caller leaves out. *)
Record origin_options : Type := mkOriginOptions {
  opt_origin_type : option value;
  opt_header : option value;
  opt_port : option value;
  opt_protocol : option value;
  opt_bucket_name : option value;
  opt_file_extensions : option value;
  opt_optimize_for : option value;
  opt_cache_query : option value
}.

Definition no_options : origin_options :=
  mkOriginOptions None None None None None None None None.

(** Lines 81-102 of [add_origin]: the record to submit, or the
    validation error. *)
Definition build_origin (unique_id path origin_address : value)
  (o : origin_options) : outcome dict :=
  let origin_type := arg_or (opt_origin_type o) (VStr "HOST_SERVER") in
  let header := arg_or (opt_header o) VNone in
  let port := arg_or (opt_port o) (VInt 80) in
  let protocol := arg_or (opt_protocol o) (VStr "HTTP") in
  let bucket_name := arg_or (opt_bucket_name o) VNone in
  let file_extensions := arg_or (opt_file_extensions o) VNone in
  let optimize_for := arg_or (opt_optimize_for o) (VStr "General web delivery") in
  let cache_query := arg_or (opt_cache_query o) (VStr "include all") in
  let new_origin : dict :=
    [ ("uniqueId", unique_id);
      ("path", path);
      ("origin", origin_address);
      ("originType", origin_type);
      ("httpPort", port);
      ("protocol", protocol);
      ("performanceConfiguration", optimize_for);
      ("cacheKeyQueryRule", cache_query) ] in
  let new_origin :=
    if truthy header then dict_set new_origin "header" header
    else new_origin in
  if eq_str origin_type "OBJECT_STORAGE" then
    if truthy bucket_name then
      let new_origin := dict_set new_origin "bucketName" bucket_name in
      if truthy file_extensions
      then inr (dict_set new_origin "fileExtension" file_extensions)
      else inr new_origin
    else inl (SoftLayerError
           "Bucket name is required when the origin type is OBJECT_STORAGE")
  else inr new_origin.

Definition add_origin (self : CDNManager)
  (unique_id path origin_address : value) (o : origin_options) : M value :=
  new_origin <- lift (build_origin unique_id path origin_address o) ;;
  origin <- remote_call (cdn_path self) "createOriginPath"
              [VDict new_origin] [] ;;
  lift (getitem origin (VInt 0)).

Definition remove_origin (self : CDNManager) (unique_id path : value)
  : M value :=
  remote_call (cdn_path self) "deleteOriginPath" [unique_id; path] [].

Definition purge_content (self : CDNManager) (unique_id path : value)
  : M value :=
  remote_call (cdn_purge self) "createPurge" [unique_id; path] [].

(** Lines 142-152 of [get_usage_metrics]: the two ends of the window. *)
Definition resolve_window (start_date end_date : value) (days : Z)
  : M (datetime * datetime) :=
  _start <- days_to_datetime days ;;
  _end <- days_to_datetime 0 ;;
  if truthy start_date && truthy end_date then
    try_except
      (_start <- lift (strptime_value start_date "%Y-%m-%d %H:%M:%S") ;;
       _end <- lift (strptime_value end_date "%Y-%m-%d %H:%M:%S") ;;
       ret (_start, _end))
      (fun e => match e with
                | ValueError _ => raise e   (* except ValueError: raise *)
                | _ => raise e              (* not caught *)
                end)
  else if negb (Bool.eqb (truthy start_date) (truthy end_date)) then
    raise (ValueError
      "start_date or end_date is None, both need to be strings or None.")
  else ret (_start, _end).

Definition get_usage_metrics (self : CDNManager) (unique_id : value)
  (start_date end_date : option value) (days : option Z)
  (frequency : option value) : M value :=
  let start_date := arg_or start_date VNone in
  let end_date := arg_or end_date VNone in
  let days := match days with Some d => d | None => 30 end in
  let frequency := arg_or frequency (VStr "aggregate") in
  '(_start, _end) <- resolve_window start_date end_date days ;;
  let _start_date := timestamp _start in
  let _end_date := timestamp _end in
  usage <- remote_call (cdn_metrics self) "getMappingUsageMetrics"
             [unique_id; VInt _start_date; VInt _end_date; frequency] [] ;;
  lift (getitem usage (VInt 0)).

(** ** The [cdn purge] command *)

Definition Table_new (cols : list string) : Table := mkTable cols [].

Definition add_row (t : Table) (row : list value) : Table :=
  mkTable (columns t) (rows t ++ [row]).

(** [env.fout(table)]. *)
Definition fout (t : Table) : M unit :=
  fun w => (inr tt, mkWorld (ticks w) (trace w) (output w ++ [t])).

Definition cli (unique_id path : string) : M unit :=
  let manager := CDNManager_init in
  result <- purge_content manager (VStr unique_id) (VStr path) ;;
  let table := Table_new ["Date"; "Path"; "Saved"; "Status"] in
  date <- lift (getitem result (VStr "date")) ;;
  path' <- lift (getitem result (VStr "path")) ;;
  saved <- lift (getitem result (VStr "saved")) ;;
  status <- lift (getitem result (VStr "status")) ;;
  let table := add_row table [date; path'; saved; status] in
  fout table.

End Manager.

(** ** Test doubles

    Concrete collaborators on which the manager can be run: a mock remote
    service in the manner of the project's fixtures, a clock, a parser for
    the canonical zero-padded form of the date format, and the timestamp of
    a host whose zone is UTC. *)

Module Fixture.

(** A remote service that answers every call with the same outcome. *)
Definition remote_const (r : outcome value) : list Call -> Call -> outcome value :=
  fun _ _ => r.

(** A clock that starts at 2021-03-01 12:00:00 and is one microsecond
    later at each reading. *)
Definition clock_running : nat -> datetime :=
  fun k => 1614600000000000 + Z.of_nat k.

(** A clock that shows 2021-03-01 12:00:00 at every reading. *)
Definition clock_frozen : nat -> datetime :=
  fun _ => 1614600000000000.

Definition digit (c : ascii) : option Z :=
  let n := Z.of_N (N_of_ascii c) in
  if (48 <=? n) && (n <=? 57) then Some (n - 48) else None.

Fixpoint number_from (acc : Z) (s : string) : option Z :=
  match s with
  | EmptyString => Some acc
  | String c rest =>
      match digit c with
      | Some d => number_from (10 * acc + d) rest
      | None => None
      end
  end.

Definition field (s : string) (pos len : nat) : option Z :=
  number_from 0 (substring pos len s).

Definition is_leap (y : Z) : bool :=
  (y mod 4 =? 0) && (negb (y mod 100 =? 0) || (y mod 400 =? 0)).

Definition days_in_month (y m : Z) : Z :=
  if m =? 2 then (if is_leap y then 29 else 28)
  else if (m =? 4) || (m =? 6) || (m =? 9) || (m =? 11) then 30
  else 31.

(** Days from 1970-01-01 to the given date of the proleptic Gregorian
    calendar. *)
Definition days_from_civil (y m d : Z) : Z :=
  let y' := if m <=? 2 then y - 1 else y in
  let era := y' / 400 in
  let yoe := y' - era * 400 in
  let mp := (m + 9) mod 12 in
  let doy := (153 * mp + 2) / 5 + d - 1 in
  let doe := yoe * 365 + yoe / 4 - yoe / 100 + doy in
  era * 146097 + doe - 719468.

Definition no_match (s fmt : string) : exn :=
  ValueError ("time data '" ++ s ++ "' does not match format '" ++ fmt ++ "'").

(** [datetime.strptime] restricted to the format of the manager and to
    strings written with every field zero-padded. *)
Definition strptime (s fmt : string) : outcome datetime :=
  if negb (String.eqb fmt "%Y-%m-%d %H:%M:%S") then inl (no_match s fmt)
  else if negb ((String.length s =? 19)%nat
                && String.eqb (substring 4 1 s) "-"
                && String.eqb (substring 7 1 s) "-"
                && String.eqb (substring 10 1 s) " "
                && String.eqb (substring 13 1 s) ":"
                && String.eqb (substring 16 1 s) ":")
  then inl (no_match s fmt)
  else
    match field s 0 4, field s 5 2, field s 8 2,
          field s 11 2, field s 14 2, field s 17 2 with
    | Some y, Some m, Some d, Some hh, Some mm, Some ss =>
        if (1 <=? y) && (1 <=? m) && (m <=? 12) && (1 <=? d)
           && (d <=? days_in_month y m)
           && (hh <=? 23) && (mm <=? 59) && (ss <=? 59)
        then inr ((((days_from_civil y m d * 24 + hh) * 60 + mm) * 60 + ss)
                  * 1000000)
        else inl (no_match s fmt)
    | _, _, _, _, _, _ => inl (no_match s fmt)
    end.

(** [utils.timestamp] on a host in UTC: whole seconds since the epoch. *)
Definition timestamp (d : datetime) : Z := d / 1000000.

Definition world0 : World := mkWorld 0 [] [].

(** The purge record of the project's mock service. *)
Definition purge_record : value :=
  VDict [ ("date", VStr "2018-07-18T20:00:00-06:00");
          ("path", VStr "/article/file.txt");
          ("saved", VStr "UNSAVED");
          ("status", VStr "SUCCESS") ].

Definition cdn_record : value :=
  VDict [ ("uniqueId", VStr "9934111111111");
          ("domain", VStr "test.example.com");
          ("status", VStr "CNAME_CONFIGURATION") ].

Example strptime_new_year :
  strptime "2021-01-01 00:00:00" "%Y-%m-%d %H:%M:%S" = inr 1609459200000000.
Proof. vm_compute. reflexivity. Qed.

Example strptime_clock_start :
  strptime "2021-03-01 12:00:00" "%Y-%m-%d %H:%M:%S" = inr (clock_frozen 0).
Proof. vm_compute. reflexivity. Qed.

Example strptime_rejects_date_only :
  strptime "2021-01-01" "%Y-%m-%d %H:%M:%S"
  = inl (no_match "2021-01-01" "%Y-%m-%d %H:%M:%S").
Proof. vm_compute. reflexivity. Qed.

Example strptime_rejects_february_30 :
  exists e, strptime "2021-02-30 10:00:00" "%Y-%m-%d %H:%M:%S" = inl e.
Proof. eexists. vm_compute. reflexivity. Qed.

End Fixture.

(** ** Properties *)

Lemma skipn_own_length {A} (t l : list A) : skipn (length t) (t ++ l) = l.
Proof. induction t as [|a t IH]; simpl; [reflexivity | exact IH]. Qed.

Lemma skipn_whole {A} (t : list A) : skipn (length t) t = [].
Proof. induction t as [|a t IH]; simpl; [reflexivity | exact IH]. Qed.

Lemma eq_str_true (v : value) (lit : string) :
  eq_str v lit = true <-> v = VStr lit.
Proof.
  split.
  - destruct v; simpl; try discriminate.
    intros H. apply String.eqb_eq in H. now subst.
  - intros ->. simpl. apply String.eqb_refl.
Qed.

Lemma getitem_first (x : value) (rest : list value) :
  getitem (VList (x :: rest)) (VInt 0) = inr x.
Proof.
  unfold getitem, list_index.
  assert (H : (Z.of_nat (length (x :: rest)) <=? 0) = false).
  { apply Z.leb_gt. simpl length. lia. }
  change (0 <? 0) with false. cbv iota. rewrite H. reflexivity.
Qed.

Lemma getitem_empty_list :
  getitem (VList []) (VInt 0) = inl (IndexError "list index out of range").
Proof. reflexivity. Qed.

(** Every field of a record that [build_origin] returns. *)
Lemma build_origin_fields (unique_id path origin_address : value)
  (o : origin_options) (r : dict) :
  build_origin unique_id path origin_address o = inr r ->
  let origin_type := arg_or (opt_origin_type o) (VStr "HOST_SERVER") in
  let header := arg_or (opt_header o) VNone in
  let bucket_name := arg_or (opt_bucket_name o) VNone in
  let file_extensions := arg_or (opt_file_extensions o) VNone in
  dict_get r "uniqueId" = Some unique_id
  /\ dict_get r "path" = Some path
  /\ dict_get r "origin" = Some origin_address
  /\ dict_get r "originType" = Some origin_type
  /\ dict_get r "httpPort" = Some (arg_or (opt_port o) (VInt 80))
  /\ dict_get r "protocol" = Some (arg_or (opt_protocol o) (VStr "HTTP"))
  /\ dict_get r "performanceConfiguration"
     = Some (arg_or (opt_optimize_for o) (VStr "General web delivery"))
  /\ dict_get r "cacheKeyQueryRule"
     = Some (arg_or (opt_cache_query o) (VStr "include all"))
  /\ dict_get r "header" = (if truthy header then Some header else None)
  /\ dict_get r "bucketName"
     = (if eq_str origin_type "OBJECT_STORAGE" then Some bucket_name else None)
  /\ dict_get r "fileExtension"
     = (if eq_str origin_type "OBJECT_STORAGE" && truthy file_extensions
        then Some file_extensions else None).
Proof.
  intros Hbuild origin_type header bucket_name file_extensions.
  unfold build_origin in Hbuild.
  fold origin_type header bucket_name file_extensions in Hbuild.
  destruct (truthy header), (eq_str origin_type "OBJECT_STORAGE"),
    (truthy bucket_name), (truthy file_extensions);
    try discriminate Hbuild;
    injection Hbuild as <-; repeat split; reflexivity.
Qed.

(** Outside the bucket-name validation, [build_origin] returns a record. *)
Lemma build_origin_succeeds (unique_id path origin_address : value)
  (o : origin_options) :
  ~ (arg_or (opt_origin_type o) (VStr "HOST_SERVER") = VStr "OBJECT_STORAGE"
     /\ truthy (arg_or (opt_bucket_name o) VNone) = false) ->
  exists r, build_origin unique_id path origin_address o = inr r.
Proof.
  intros Hvalid. unfold build_origin.
  destruct (eq_str (arg_or (opt_origin_type o) (VStr "HOST_SERVER"))
              "OBJECT_STORAGE") eqn:Htype.
  - apply eq_str_true in Htype.
    destruct (truthy (arg_or (opt_bucket_name o) VNone)) eqn:Hbucket.
    + destruct (truthy (arg_or (opt_file_extensions o) VNone));
        eexists; reflexivity.
    + contradiction Hvalid. split; [exact Htype | reflexivity].
  - eexists. reflexivity.
Qed.

Section Properties.

Variable remote : list Call -> Call -> outcome value.
Variable wall_clock : nat -> datetime.
Variable strptime : string -> string -> outcome datetime.
Variable timestamp : datetime -> Z.

(** A remote call returns what the service answers and adds itself, and
    nothing else, to the trace. *)
Lemma remote_call_run (svc meth : string) (a : list value) (kw : dict)
  (w : World) :
  remote_call remote svc meth a kw w
  = (remote (trace w) (mkCall svc meth a kw),
     mkWorld (ticks w) (trace w ++ [mkCall svc meth a kw]) (output w)).
Proof. reflexivity. Qed.

Lemma remote_call_calls (svc meth : string) (a : list value) (kw : dict)
  (w : World) :
  calls_of (remote_call remote svc meth a kw) w = [mkCall svc meth a kw].
Proof. unfold calls_of. simpl. apply skipn_own_length. Qed.

(** Unwrapping after a remote call: the call is issued once, and the
    operation returns element 0 of the answer. *)
Lemma call_then_unwrap (svc meth : string) (a : list value) (kw : dict)
  (w : World) :
  let op := (r <- remote_call remote svc meth a kw ;; lift (getitem r (VInt 0))) in
  calls_of op w = [mkCall svc meth a kw]
  /\ fst (op w) = match remote (trace w) (mkCall svc meth a kw) with
                  | inr r => getitem r (VInt 0)
                  | inl e => inl e
                  end.
Proof.
  unfold calls_of, bind, lift. rewrite remote_call_run.
  destruct (remote (trace w) (mkCall svc meth a kw)); simpl;
    split; try reflexivity; apply skipn_own_length.
Qed.

(** C1: [add_origin] with origin type OBJECT_STORAGE and a bucket name
    that is absent or falsy raises [SoftLayerError] with the bucket-name
    message and leaves the world as it was: [createOriginPath] is not
    called, nor is anything else. *)
Theorem add_origin_bucket_required (self : CDNManager)
  (unique_id path origin_address : value) (o : origin_options) (w : World) :
  opt_origin_type o = Some (VStr "OBJECT_STORAGE") ->
  truthy (arg_or (opt_bucket_name o) VNone) = false ->
  add_origin remote self unique_id path origin_address o w
  = (inl (SoftLayerError
            "Bucket name is required when the origin type is OBJECT_STORAGE"),
     w)
  /\ calls_of (add_origin remote self unique_id path origin_address o) w = [].
Proof.
  intros Htype Hbucket.
  assert (Hbuild : build_origin unique_id path origin_address o
                   = inl (SoftLayerError
                       "Bucket name is required when the origin type is OBJECT_STORAGE")).
  { unfold build_origin. rewrite Htype, Hbucket. simpl arg_or.
    replace (eq_str (VStr "OBJECT_STORAGE") "OBJECT_STORAGE") with true
      by reflexivity.
    reflexivity. }
  unfold calls_of, add_origin, bind, lift. rewrite Hbuild. simpl.
  split; [reflexivity | apply skipn_whole].
Qed.

(** C8: when [listDomainMappingByUniqueId] answers with a list,
    [get_cdn] returns its first element if there is one, and raises
    [IndexError] to its caller if the list is empty. *)
Theorem get_cdn_first_or_index_error (self : CDNManager)
  (unique_id : value) (kw : dict) (w : World) (cdn_list : list value) :
  remote (trace w)
    (mkCall (cdn_configuration self) "listDomainMappingByUniqueId"
       [unique_id] kw) = inr (VList cdn_list) ->
  fst (get_cdn remote self unique_id kw w)
  = match cdn_list with
    | x :: _ => inr x
    | [] => inl (IndexError "list index out of range")
    end.
Proof.
  intros Hresp. unfold get_cdn.
  destruct (call_then_unwrap (cdn_configuration self)
              "listDomainMappingByUniqueId" [unique_id] kw w) as [_ Hres].
  cbv zeta in Hres. rewrite Hres, Hresp.
  destruct cdn_list as [|x rest];
    [apply getitem_empty_list | apply getitem_first].
Qed.

(** *** The usage-metrics window *)

(** The window [resolve_window] yields, as a pure function of the two
    clock readings it takes. *)
Definition window_of (start_date end_date : value) (days : Z)
  (now_start now_end : datetime) : outcome (datetime * datetime) :=
  if truthy start_date && truthy end_date then
    match strptime_value strptime start_date "%Y-%m-%d %H:%M:%S" with
    | inl e => inl e
    | inr d1 =>
        match strptime_value strptime end_date "%Y-%m-%d %H:%M:%S" with
        | inl e => inl e
        | inr d2 => inr (d1, d2)
        end
    end
  else if negb (Bool.eqb (truthy start_date) (truthy end_date)) then
    inl (ValueError
           "start_date or end_date is None, both need to be strings or None.")
  else inr (now_start - timedelta_days days, now_end).

(** The world after the two clock readings of [get_usage_metrics]. *)
Definition after_two_reads (w : World) : World :=
  mkWorld (S (S (ticks w))) (trace w) (output w).

Lemma resolve_window_run (start_date end_date : value) (days : Z) (w : World) :
  resolve_window wall_clock strptime start_date end_date days w
  = (window_of start_date end_date days
       (wall_clock (ticks w)) (wall_clock (S (ticks w))),
     after_two_reads w).
Proof.
  unfold resolve_window, window_of, days_to_datetime, datetime_now,
    try_except, bind, ret, raise, lift, after_two_reads.
  cbn [ticks trace output].
  destruct (truthy start_date && truthy end_date).
  - destruct (strptime_value strptime start_date _) as [e|d1].
    + destruct e; reflexivity.
    + destruct (strptime_value strptime end_date _) as [e|d2];
        [destruct e|]; reflexivity.
  - destruct (negb (Bool.eqb (truthy start_date) (truthy end_date))).
    + reflexivity.
    + unfold timedelta_days. rewrite Z.sub_0_r. reflexivity.
Qed.

(** The remote call that [get_usage_metrics] issues for a window. *)
Definition metrics_call (self : CDNManager) (unique_id : value)
  (window : datetime * datetime) (frequency : value) : Call :=
  mkCall (cdn_metrics self) "getMappingUsageMetrics"
    [unique_id; VInt (timestamp (fst window)); VInt (timestamp (snd window));
     frequency] [].

Lemma get_usage_metrics_run (self : CDNManager) (unique_id : value)
  (start_date end_date : option value) (days : option Z)
  (frequency : option value) (w : World) :
  let op := get_usage_metrics remote wall_clock strptime timestamp self
              unique_id start_date end_date days frequency in
  match window_of (arg_or start_date VNone) (arg_or end_date VNone)
          (match days with Some d => d | None => 30 end)
          (wall_clock (ticks w)) (wall_clock (S (ticks w))) with
  | inl e => op w = (inl e, after_two_reads w) /\ calls_of op w = []
  | inr window =>
      let c := metrics_call self unique_id window
                 (arg_or frequency (VStr "aggregate")) in
      calls_of op w = [c]
      /\ fst (op w) = match remote (trace w) c with
                      | inr usage => getitem usage (VInt 0)
                      | inl e => inl e
                      end
  end.
Proof.
  intros op.
  assert (Hrun : op w
    = match window_of (arg_or start_date VNone) (arg_or end_date VNone)
              (match days with Some d => d | None => 30 end)
              (wall_clock (ticks w)) (wall_clock (S (ticks w))) with
      | inl e => (inl e, after_two_reads w)
      | inr window =>
          (usage <- remote_call remote (cdn_metrics self)
                      "getMappingUsageMetrics"
                      [unique_id; VInt (timestamp (fst window));
                       VInt (timestamp (snd window));
                       arg_or frequency (VStr "aggregate")] [] ;;
           lift (getitem usage (VInt 0))) (after_two_reads w)
      end).
  { subst op. unfold get_usage_metrics. unfold bind at 1.
    rewrite resolve_window_run.
    destruct (window_of _ _ _ _ _) as [e|[d1 d2]]; reflexivity. }
  unfold calls_of. rewrite Hrun. clear Hrun.
  destruct (window_of _ _ _ _ _) as [e|window].
  - split; [reflexivity | apply skipn_whole].
  - cbv zeta.
    destruct (call_then_unwrap (cdn_metrics self) "getMappingUsageMetrics"
                [unique_id; VInt (timestamp (fst window));
                 VInt (timestamp (snd window));
                 arg_or frequency (VStr "aggregate")] []
                (after_two_reads w)) as [Hcalls Hres].
    cbv zeta in Hcalls, Hres. unfold calls_of in Hcalls.
    split; [exact Hcalls | exact Hres].
Qed.

(** C3: with exactly one of [start_date] and [end_date] supplied (one
    truthy, the other absent or falsy), [get_usage_metrics] raises
    [ValueError] with the message below, and no remote call is made. *)
Theorem get_usage_metrics_one_date_only (self : CDNManager)
  (unique_id : value) (start_date end_date : option value)
  (days : option Z) (frequency : option value) (w : World) :
  truthy (arg_or start_date VNone) = negb (truthy (arg_or end_date VNone)) ->
  fst (get_usage_metrics remote wall_clock strptime timestamp self unique_id
         start_date end_date days frequency w)
  = inl (ValueError
           "start_date or end_date is None, both need to be strings or None.")
  /\ calls_of (get_usage_metrics remote wall_clock strptime timestamp self
                 unique_id start_date end_date days frequency) w = [].
Proof.
  intros Hone.
  pose proof (get_usage_metrics_run self unique_id start_date end_date days
                frequency w) as Hrun.
  cbv zeta in Hrun. unfold window_of in Hrun. rewrite Hone in Hrun.
  destruct (truthy (arg_or end_date VNone)); simpl in Hrun;
    destruct Hrun as [Hres Hcalls]; rewrite Hres; split;
    solve [reflexivity | exact Hcalls].
Qed.

(** C4: with both dates supplied (truthy), each is parsed with the format
    "%Y-%m-%d %H:%M:%S"; an error of the parse of [start_date], or of
    [end_date] once [start_date] has parsed, is the error of the
    operation, as it was raised and with no remote call; and when both
    parse, the one remote call carries the timestamps of the two parsed
    values. *)
Theorem get_usage_metrics_parses_both_dates (self : CDNManager)
  (unique_id start_date end_date : value)
  (days : option Z) (frequency : option value) (w : World) :
  truthy start_date = true ->
  truthy end_date = true ->
  let op := get_usage_metrics remote wall_clock strptime timestamp self
              unique_id (Some start_date) (Some end_date) days frequency in
  (forall e,
      strptime_value strptime start_date "%Y-%m-%d %H:%M:%S" = inl e ->
      fst (op w) = inl e /\ calls_of op w = [])
  /\ (forall d1 e,
      strptime_value strptime start_date "%Y-%m-%d %H:%M:%S" = inr d1 ->
      strptime_value strptime end_date "%Y-%m-%d %H:%M:%S" = inl e ->
      fst (op w) = inl e /\ calls_of op w = [])
  /\ (forall d1 d2,
      strptime_value strptime start_date "%Y-%m-%d %H:%M:%S" = inr d1 ->
      strptime_value strptime end_date "%Y-%m-%d %H:%M:%S" = inr d2 ->
      calls_of op w
      = [mkCall (cdn_metrics self) "getMappingUsageMetrics"
           [unique_id; VInt (timestamp d1); VInt (timestamp d2);
            arg_or frequency (VStr "aggregate")] []]).
Proof.
  intros Hstart Hend op.
  pose proof (get_usage_metrics_run self unique_id (Some start_date)
                (Some end_date) days frequency w) as Hrun.
  cbv zeta in Hrun. fold op in Hrun. unfold window_of in Hrun.
  simpl arg_or in Hrun. rewrite Hstart, Hend in Hrun. simpl andb in Hrun.
  cbv iota in Hrun.
  split; [|split].
  - intros e H1. rewrite H1 in Hrun. destruct Hrun as [Hres Hcalls].
    rewrite Hres. split; [reflexivity | exact Hcalls].
  - intros d1 e H1 H2. rewrite H1, H2 in Hrun. destruct Hrun as [Hres Hcalls].
    rewrite Hres. split; [reflexivity | exact Hcalls].
  - intros d1 d2 H1 H2. rewrite H1, H2 in Hrun. apply Hrun.
Qed.

(** C5: with neither date supplied (both absent or falsy),
    [get_usage_metrics] makes one remote call whose window starts [days]
    days before the reading the clock gives first and ends at the reading
    it gives next, [days] being 30 when the caller leaves it out; when the
    clock shows the same [now] at both readings the window is
    [now - days, now]. *)
Theorem get_usage_metrics_default_window (self : CDNManager)
  (unique_id : value) (start_date end_date : option value)
  (days : option Z) (frequency : option value) (w : World) :
  truthy (arg_or start_date VNone) = false ->
  truthy (arg_or end_date VNone) = false ->
  let op := get_usage_metrics remote wall_clock strptime timestamp self
              unique_id start_date end_date days frequency in
  let n := match days with Some d => d | None => 30 end in
  calls_of op w
  = [mkCall (cdn_metrics self) "getMappingUsageMetrics"
       [unique_id;
        VInt (timestamp (wall_clock (ticks w) - timedelta_days n));
        VInt (timestamp (wall_clock (S (ticks w))));
        arg_or frequency (VStr "aggregate")] []]
  /\ (forall now,
      wall_clock (ticks w) = now ->
      wall_clock (S (ticks w)) = now ->
      calls_of op w
      = [mkCall (cdn_metrics self) "getMappingUsageMetrics"
           [unique_id;
            VInt (timestamp (now - timedelta_days n));
            VInt (timestamp now);
            arg_or frequency (VStr "aggregate")] []]).
Proof.
  intros Hstart Hend op n.
  pose proof (get_usage_metrics_run self unique_id start_date end_date days
                frequency w) as Hrun.
  cbv zeta in Hrun. fold op n in Hrun. unfold window_of in Hrun.
  rewrite Hstart, Hend in Hrun. simpl in Hrun. destruct Hrun as [Hcalls _].
  split; [exact Hcalls|].
  intros now H1 H2. rewrite H1, H2 in Hcalls. exact Hcalls.
Qed.

(** C10: the dates are told apart by truth value. With both dates the
    empty string, [get_usage_metrics] behaves as with both left out,
    whatever the parser would do (it is not consulted), and issues the
    remote call for the default window; with one empty string and one
    non-empty string it raises the [ValueError] of C3. *)
Theorem get_usage_metrics_empty_strings (self : CDNManager)
  (unique_id : value) (days : option Z) (frequency : option value)
  (w : World) :
  let op := get_usage_metrics remote wall_clock strptime timestamp self
              unique_id in
  let n := match days with Some d => d | None => 30 end in
  (forall parse : string -> string -> outcome datetime,
      get_usage_metrics remote wall_clock parse timestamp self unique_id
        (Some (VStr "")) (Some (VStr "")) days frequency w
      = op None None days frequency w)
  /\ calls_of (op (Some (VStr "")) (Some (VStr "")) days frequency) w
     = [mkCall (cdn_metrics self) "getMappingUsageMetrics"
          [unique_id;
           VInt (timestamp (wall_clock (ticks w) - timedelta_days n));
           VInt (timestamp (wall_clock (S (ticks w))));
           arg_or frequency (VStr "aggregate")] []]
  /\ (forall s, s <> "" ->
      fst (op (Some (VStr s)) (Some (VStr "")) days frequency w)
      = inl (ValueError
               "start_date or end_date is None, both need to be strings or None.")
      /\ fst (op (Some (VStr "")) (Some (VStr s)) days frequency w)
      = inl (ValueError
               "start_date or end_date is None, both need to be strings or None.")).
Proof.
  intros op n.
  assert (Hone : forall a b : string,
             String.eqb a "" = negb (String.eqb b "") ->
             fst (op (Some (VStr a)) (Some (VStr b)) days frequency w)
             = inl (ValueError
                 "start_date or end_date is None, both need to be strings or None.")).
  { intros a b Hab.
    pose proof (get_usage_metrics_run self unique_id (Some (VStr a))
                  (Some (VStr b)) days frequency w) as Hrun.
    cbv zeta in Hrun. unfold window_of in Hrun. simpl arg_or in Hrun.
    simpl truthy in Hrun. rewrite Hab in Hrun.
    destruct (String.eqb b ""); simpl in Hrun;
      destruct Hrun as [Hres _]; subst op; rewrite Hres; reflexivity. }
  split; [|split].
  - intros parse. subst op. unfold get_usage_metrics.
    simpl arg_or. unfold bind at 1 3.
    unfold resolve_window, days_to_datetime, datetime_now, bind, ret.
    reflexivity.
  - pose proof (get_usage_metrics_run self unique_id (Some (VStr ""))
                  (Some (VStr "")) days frequency w) as Hrun.
    cbv zeta in Hrun. unfold window_of in Hrun. simpl in Hrun.
    apply Hrun.
  - intros s Hs.
    assert (Hne : String.eqb s "" = false) by now apply String.eqb_neq.
    split; apply Hone; simpl; rewrite Hne; reflexivity.
Qed.

(** *** The record submitted by [add_origin] *)

Lemma add_origin_run (self : CDNManager)
  (unique_id path origin_address : value) (o : origin_options) (w : World) :
  let op := add_origin remote self unique_id path origin_address o in
  match build_origin unique_id path origin_address o with
  | inl e => op w = (inl e, w) /\ calls_of op w = []
  | inr r =>
      let c := mkCall (cdn_path self) "createOriginPath" [VDict r] [] in
      calls_of op w = [c]
      /\ fst (op w) = match remote (trace w) c with
                      | inr origin => getitem origin (VInt 0)
                      | inl e => inl e
                      end
  end.
Proof.
  intros op. subst op. unfold add_origin. unfold calls_of, bind at 1 3 5, lift at 1 3 5.
  destruct (build_origin unique_id path origin_address o) as [e|r].
  - split; [reflexivity | apply skipn_whole].
  - exact (call_then_unwrap (cdn_path self) "createOriginPath" [VDict r] [] w).
Qed.

(** The record in the trace is the one [build_origin] returns. *)
Lemma add_origin_submitted (self : CDNManager)
  (unique_id path origin_address : value) (o : origin_options) (w : World)
  (r : dict) :
  calls_of (add_origin remote self unique_id path origin_address o) w
  = [mkCall (cdn_path self) "createOriginPath" [VDict r] []] ->
  build_origin unique_id path origin_address o = inr r.
Proof.
  intros Hcalls.
  pose proof (add_origin_run self unique_id path origin_address o w) as Hrun.
  cbv zeta in Hrun.
  destruct (build_origin unique_id path origin_address o) as [e|r'].
  - destruct Hrun as [_ Hnone]. rewrite Hnone in Hcalls. discriminate.
  - destruct Hrun as [Hone _]. rewrite Hone in Hcalls.
    injection Hcalls as ->. reflexivity.
Qed.

(** C6: in the record that [add_origin] submits, [fileExtension] is
    present exactly when the origin type is OBJECT_STORAGE and
    [file_extensions] is truthy, and then holds the argument; for any
    other origin type the record has neither [bucketName] nor
    [fileExtension], whatever was passed for them. *)
Theorem add_origin_object_storage_fields (self : CDNManager)
  (unique_id path origin_address : value) (o : origin_options) (w : World)
  (r : dict) :
  calls_of (add_origin remote self unique_id path origin_address o) w
  = [mkCall (cdn_path self) "createOriginPath" [VDict r] []] ->
  let origin_type := arg_or (opt_origin_type o) (VStr "HOST_SERVER") in
  let file_extensions := arg_or (opt_file_extensions o) VNone in
  (dict_has r "fileExtension" = true
   <-> origin_type = VStr "OBJECT_STORAGE" /\ truthy file_extensions = true)
  /\ (dict_has r "fileExtension" = true ->
      dict_get r "fileExtension" = Some file_extensions)
  /\ (origin_type <> VStr "OBJECT_STORAGE" ->
      dict_has r "bucketName" = false /\ dict_has r "fileExtension" = false).
Proof.
  intros Hcalls origin_type file_extensions.
  apply add_origin_submitted in Hcalls.
  apply build_origin_fields in Hcalls. cbv zeta in Hcalls.
  fold origin_type file_extensions in Hcalls.
  destruct Hcalls as (_ & _ & _ & _ & _ & _ & _ & _ & _ & Hbucket & Hext).
  unfold dict_has. rewrite Hbucket, Hext.
  destruct (eq_str origin_type "OBJECT_STORAGE") eqn:Htype.
  - apply eq_str_true in Htype.
    destruct (truthy file_extensions); simpl; repeat split;
      try congruence; try tauto; intros []; congruence.
  - assert (Hne : origin_type <> VStr "OBJECT_STORAGE").
    { intros Heq. apply eq_str_true in Heq. congruence. }
    simpl; repeat split; try congruence; try tauto; intros []; congruence.
Qed.

(** C9: with every optional argument left out, [add_origin] submits the
    record with originType HOST_SERVER, httpPort 80, protocol HTTP,
    performanceConfiguration "General web delivery" and cacheKeyQueryRule
    "include all", and no other optional field; in any submitted record
    each of these five fields holds the argument or, when it is left out,
    that default, and the key [header] is present exactly when the header
    argument is truthy, holding that argument. *)
Theorem add_origin_defaults_and_header (self : CDNManager)
  (unique_id path origin_address : value) (w : World) :
  calls_of (add_origin remote self unique_id path origin_address no_options) w
  = [mkCall (cdn_path self) "createOriginPath"
       [VDict [ ("uniqueId", unique_id);
                ("path", path);
                ("origin", origin_address);
                ("originType", VStr "HOST_SERVER");
                ("httpPort", VInt 80);
                ("protocol", VStr "HTTP");
                ("performanceConfiguration", VStr "General web delivery");
                ("cacheKeyQueryRule", VStr "include all") ]] []]
  /\ (forall (o : origin_options) (r : dict),
      calls_of (add_origin remote self unique_id path origin_address o) w
      = [mkCall (cdn_path self) "createOriginPath" [VDict r] []] ->
      dict_get r "originType"
      = Some (arg_or (opt_origin_type o) (VStr "HOST_SERVER"))
      /\ dict_get r "httpPort" = Some (arg_or (opt_port o) (VInt 80))
      /\ dict_get r "protocol" = Some (arg_or (opt_protocol o) (VStr "HTTP"))
      /\ dict_get r "performanceConfiguration"
         = Some (arg_or (opt_optimize_for o) (VStr "General web delivery"))
      /\ dict_get r "cacheKeyQueryRule"
         = Some (arg_or (opt_cache_query o) (VStr "include all"))
      /\ dict_has r "header" = truthy (arg_or (opt_header o) VNone)
      /\ (truthy (arg_or (opt_header o) VNone) = true ->
          dict_get r "header" = Some (arg_or (opt_header o) VNone))).
Proof.
  split.
  - pose proof (add_origin_run self unique_id path origin_address
                  no_options w) as Hrun.
    cbv zeta in Hrun. apply Hrun.
  - intros o r Hcalls.
    apply add_origin_submitted in Hcalls.
    apply build_origin_fields in Hcalls. cbv zeta in Hcalls.
    destruct Hcalls as (_ & _ & _ & Htype & Hport & Hproto & Hperf & Hcache
                        & Hheader & _ & _).
    unfold dict_has. rewrite Hheader.
    repeat split; try assumption.
    + destruct (truthy (arg_or (opt_header o) VNone)); reflexivity.
    + intros ->. reflexivity.
Qed.

(** *** Unwrapping *)

(** C7: [get_cdn], [add_origin] and [get_usage_metrics] each make their
    call ([add_origin] unless the bucket-name validation fails,
    [get_usage_metrics] when the dates are both left out or both parse) and
    return the first element of the list the remote service answers that
    call with; [purge_content] and [remove_origin] return the answer of
    [createPurge] and of [deleteOriginPath] itself, whatever it is. *)
Theorem unwrap_asymmetry (self : CDNManager) (w : World) :
  (forall unique_id kw,
      calls_of (get_cdn remote self unique_id kw) w
      = [mkCall (cdn_configuration self) "listDomainMappingByUniqueId"
           [unique_id] kw])
  /\ (forall unique_id kw c x rest,
      calls_of (get_cdn remote self unique_id kw) w = [c] ->
      remote (trace w) c = inr (VList (x :: rest)) ->
      fst (get_cdn remote self unique_id kw w) = inr x)
  /\ (forall unique_id path origin_address o,
      ~ (arg_or (opt_origin_type o) (VStr "HOST_SERVER")
         = VStr "OBJECT_STORAGE"
         /\ truthy (arg_or (opt_bucket_name o) VNone) = false) ->
      exists r,
        calls_of (add_origin remote self unique_id path origin_address o) w
        = [mkCall (cdn_path self) "createOriginPath" [VDict r] []])
  /\ (forall unique_id path origin_address o c x rest,
      calls_of (add_origin remote self unique_id path origin_address o) w
      = [c] ->
      remote (trace w) c = inr (VList (x :: rest)) ->
      fst (add_origin remote self unique_id path origin_address o w) = inr x)
  /\ (forall unique_id start_date end_date days frequency,
      (truthy (arg_or start_date VNone) = false
       /\ truthy (arg_or end_date VNone) = false)
      \/ (truthy (arg_or start_date VNone) = true
          /\ truthy (arg_or end_date VNone) = true
          /\ exists d1 d2,
              strptime_value strptime (arg_or start_date VNone)
                "%Y-%m-%d %H:%M:%S" = inr d1
              /\ strptime_value strptime (arg_or end_date VNone)
                   "%Y-%m-%d %H:%M:%S" = inr d2) ->
      exists t1 t2,
        calls_of (get_usage_metrics remote wall_clock strptime timestamp self
                    unique_id start_date end_date days frequency) w
        = [mkCall (cdn_metrics self) "getMappingUsageMetrics"
             [unique_id; VInt t1; VInt t2;
              arg_or frequency (VStr "aggregate")] []])
  /\ (forall unique_id start_date end_date days frequency c x rest,
      calls_of (get_usage_metrics remote wall_clock strptime timestamp self
                  unique_id start_date end_date days frequency) w = [c] ->
      remote (trace w) c = inr (VList (x :: rest)) ->
      fst (get_usage_metrics remote wall_clock strptime timestamp self
             unique_id start_date end_date days frequency w) = inr x)
  /\ (forall unique_id path,
      let c := mkCall (cdn_purge self) "createPurge" [unique_id; path] [] in
      calls_of (purge_content remote self unique_id path) w = [c]
      /\ fst (purge_content remote self unique_id path w)
         = remote (trace w) c)
  /\ (forall unique_id path,
      let c := mkCall (cdn_path self) "deleteOriginPath" [unique_id; path] [] in
      calls_of (remove_origin remote self unique_id path) w = [c]
      /\ fst (remove_origin remote self unique_id path w)
         = remote (trace w) c).
Proof.
  repeat apply conj.
  - intros unique_id kw. unfold get_cdn.
    apply (call_then_unwrap (cdn_configuration self)
             "listDomainMappingByUniqueId" [unique_id] kw w).
  - intros unique_id kw c x rest Hcalls Hresp.
    destruct (call_then_unwrap (cdn_configuration self)
                "listDomainMappingByUniqueId" [unique_id] kw w)
      as [Hone Hres].
    cbv zeta in Hone, Hres. unfold get_cdn in *.
    rewrite Hone in Hcalls. injection Hcalls as <-.
    rewrite Hres, Hresp. apply getitem_first.
  - intros unique_id path origin_address o Hvalid.
    destruct (build_origin_succeeds unique_id path origin_address o Hvalid)
      as [r Hbuild].
    pose proof (add_origin_run self unique_id path origin_address o w)
      as Hrun.
    cbv zeta in Hrun. rewrite Hbuild in Hrun.
    exists r. apply Hrun.
  - intros unique_id path origin_address o c x rest Hcalls Hresp.
    pose proof (add_origin_run self unique_id path origin_address o w)
      as Hrun.
    cbv zeta in Hrun.
    destruct (build_origin unique_id path origin_address o) as [e|r].
    + destruct Hrun as [_ Hnone]. rewrite Hnone in Hcalls. discriminate.
    + destruct Hrun as [Hone Hres]. rewrite Hone in Hcalls.
      injection Hcalls as <-. rewrite Hres, Hresp. apply getitem_first.
  - intros unique_id start_date end_date days frequency Hdates.
    pose proof (get_usage_metrics_run self unique_id start_date end_date
                  days frequency w) as Hrun.
    cbv zeta in Hrun. unfold window_of in Hrun.
    destruct Hdates as [[Hstart Hend] | (Hstart & Hend & d1 & d2 & H1 & H2)];
      rewrite Hstart, Hend in Hrun; simpl in Hrun.
    + destruct Hrun as [Hone _]. eexists _, _. exact Hone.
    + rewrite H1, H2 in Hrun. destruct Hrun as [Hone _].
      eexists _, _. exact Hone.
  - intros unique_id start_date end_date days frequency c x rest Hcalls Hresp.
    pose proof (get_usage_metrics_run self unique_id start_date end_date
                  days frequency w) as Hrun.
    cbv zeta in Hrun.
    destruct (window_of _ _ _ _ _) as [e|window].
    + destruct Hrun as [_ Hnone]. rewrite Hnone in Hcalls. discriminate.
    + destruct Hrun as [Hone Hres]. rewrite Hone in Hcalls.
      injection Hcalls as <-. rewrite Hres, Hresp. apply getitem_first.
  - intros unique_id path c. split;
      [apply remote_call_calls | reflexivity].
  - intros unique_id path c. split;
      [apply remote_call_calls | reflexivity].
Qed.

(** *** The [cdn purge] command *)

(** When [createPurge] answers with a list, of any length, the command
    raises [TypeError] at [result['date']] and writes no table. *)
Lemma cli_list_answer_raises (unique_id path : string) (w : World)
  (records : list value) :
  let c := mkCall (cdn_purge CDNManager_init) "createPurge"
             [VStr unique_id; VStr path] [] in
  remote (trace w) c = inr (VList records) ->
  cli remote unique_id path w
  = (inl (TypeError "list indices must be integers or slices, not str"),
     mkWorld (ticks w) (trace w ++ [c]) (output w)).
Proof.
  intros c Hresp. unfold cli, purge_content, bind.
  rewrite remote_call_run. fold c. rewrite Hresp. reflexivity.
Qed.

(** When [createPurge] answers with a bare record, the command writes one
    table of one row with the record's four fields. *)
Lemma cli_record_answer_renders (unique_id path : string) (w : World)
  (record : dict) (date path' saved status : value) :
  let c := mkCall (cdn_purge CDNManager_init) "createPurge"
             [VStr unique_id; VStr path] [] in
  remote (trace w) c = inr (VDict record) ->
  dict_get record "date" = Some date ->
  dict_get record "path" = Some path' ->
  dict_get record "saved" = Some saved ->
  dict_get record "status" = Some status ->
  cli remote unique_id path w
  = (inr tt,
     mkWorld (ticks w) (trace w ++ [c])
       (output w ++ [mkTable ["Date"; "Path"; "Saved"; "Status"]
                       [[date; path'; saved; status]]])).
Proof.
  intros c Hresp Hdate Hpath Hsaved Hstatus.
  unfold cli, purge_content, bind.
  rewrite remote_call_run. fold c. rewrite Hresp.
  unfold lift, getitem. rewrite Hdate, Hpath, Hsaved, Hstatus.
  reflexivity.
Qed.

End Properties.

(** ** The properties on the test doubles *)

Definition object_storage_options (bucket_name file_extensions : option value)
  : origin_options :=
  mkOriginOptions (Some (VStr "OBJECT_STORAGE")) None None None
    bucket_name file_extensions None None.

(** C2: the command run as [cdn purge 9779455 /article/file.txt] against a
    service whose [createPurge] answers with a list of one purge record:
    the list is subscripted with the string 'date', which raises
    [TypeError]; no row is rendered and nothing is written. *)
Theorem cli_purge_one_record_list :
  cli (Fixture.remote_const (inr (VList [Fixture.purge_record])))
    "9779455" "/article/file.txt" Fixture.world0
  = (inl (TypeError "list indices must be integers or slices, not str"),
     mkWorld 0
       [mkCall "SoftLayer_Network_CdnMarketplace_Configuration_Cache_Purge"
          "createPurge" [VStr "9779455"; VStr "/article/file.txt"] []]
       []).
Proof. reflexivity. Qed.

Example cli_purge_bare_record :
  cli (Fixture.remote_const (inr Fixture.purge_record))
    "9779455" "/article/file.txt" Fixture.world0
  = (inr tt,
     mkWorld 0
       [mkCall "SoftLayer_Network_CdnMarketplace_Configuration_Cache_Purge"
          "createPurge" [VStr "9779455"; VStr "/article/file.txt"] []]
       [mkTable ["Date"; "Path"; "Saved"; "Status"]
          [[VStr "2018-07-18T20:00:00-06:00"; VStr "/article/file.txt";
            VStr "UNSAVED"; VStr "SUCCESS"]]]).
Proof. reflexivity. Qed.

Lemma add_origin_bucket_required_witness :
  let op := add_origin (Fixture.remote_const (inr (VList [Fixture.cdn_record])))
              CDNManager_init (VStr "9934111111111") (VStr "/example")
              (VStr "bucket.example.com")
              (object_storage_options (Some (VStr "")) (Some (VStr "jpg"))) in
  op Fixture.world0
  = (inl (SoftLayerError
            "Bucket name is required when the origin type is OBJECT_STORAGE"),
     Fixture.world0)
  /\ calls_of op Fixture.world0 = [].
Proof.
  apply (add_origin_bucket_required
           (Fixture.remote_const (inr (VList [Fixture.cdn_record])))
           CDNManager_init (VStr "9934111111111") (VStr "/example")
           (VStr "bucket.example.com")
           (object_storage_options (Some (VStr "")) (Some (VStr "jpg")))
           Fixture.world0);
    reflexivity.
Defined.

Lemma get_cdn_first_or_index_error_witness :
  fst (get_cdn (Fixture.remote_const (inr (VList [Fixture.cdn_record])))
         CDNManager_init (VStr "9934111111111") [] Fixture.world0)
  = inr Fixture.cdn_record.
Proof.
  apply (get_cdn_first_or_index_error
           (Fixture.remote_const (inr (VList [Fixture.cdn_record])))
           CDNManager_init (VStr "9934111111111") [] Fixture.world0
           [Fixture.cdn_record]).
  reflexivity.
Defined.

Lemma get_usage_metrics_one_date_only_witness :
  let op := get_usage_metrics (Fixture.remote_const (inr (VList [VDict []])))
              Fixture.clock_running Fixture.strptime Fixture.timestamp
              CDNManager_init (VStr "9934111111111")
              (Some (VStr "2021-01-01 00:00:00")) None None None in
  fst (op Fixture.world0)
  = inl (ValueError
           "start_date or end_date is None, both need to be strings or None.")
  /\ calls_of op Fixture.world0 = [].
Proof.
  apply (get_usage_metrics_one_date_only
           (Fixture.remote_const (inr (VList [VDict []])))
           Fixture.clock_running Fixture.strptime Fixture.timestamp
           CDNManager_init (VStr "9934111111111")
           (Some (VStr "2021-01-01 00:00:00")) None None None Fixture.world0).
  reflexivity.
Defined.

Lemma get_usage_metrics_parses_both_dates_witness :
  calls_of
    (get_usage_metrics (Fixture.remote_const (inr (VList [VDict []])))
       Fixture.clock_running Fixture.strptime Fixture.timestamp
       CDNManager_init (VStr "9934111111111")
       (Some (VStr "2021-01-01 00:00:00")) (Some (VStr "2021-01-02 00:00:00"))
       None None)
    Fixture.world0
  = [mkCall "Network_CdnMarketplace_Metrics" "getMappingUsageMetrics"
       [VStr "9934111111111"; VInt 1609459200; VInt 1609545600;
        VStr "aggregate"] []].
Proof.
  destruct (get_usage_metrics_parses_both_dates
              (Fixture.remote_const (inr (VList [VDict []])))
              Fixture.clock_running Fixture.strptime Fixture.timestamp
              CDNManager_init (VStr "9934111111111")
              (VStr "2021-01-01 00:00:00") (VStr "2021-01-02 00:00:00")
              None None Fixture.world0 eq_refl eq_refl)
    as (_ & _ & Hboth).
  apply (Hboth 1609459200000000 1609545600000000); vm_compute; reflexivity.
Defined.

Lemma get_usage_metrics_default_window_witness :
  calls_of
    (get_usage_metrics (Fixture.remote_const (inr (VList [VDict []])))
       Fixture.clock_frozen Fixture.strptime Fixture.timestamp
       CDNManager_init (VStr "9934111111111") None None (Some 7) None)
    Fixture.world0
  = [mkCall "Network_CdnMarketplace_Metrics" "getMappingUsageMetrics"
       [VStr "9934111111111"; VInt 1613995200; VInt 1614600000;
        VStr "aggregate"] []].
Proof.
  destruct (get_usage_metrics_default_window
              (Fixture.remote_const (inr (VList [VDict []])))
              Fixture.clock_frozen Fixture.strptime Fixture.timestamp
              CDNManager_init (VStr "9934111111111") None None (Some 7) None
              Fixture.world0 eq_refl eq_refl)
    as [_ Hfrozen].
  apply (Hfrozen 1614600000000000); reflexivity.
Defined.

Lemma add_origin_object_storage_fields_witness :
  let r := [ ("uniqueId", VStr "9934111111111");
             ("path", VStr "/example/videos");
             ("origin", VStr "bucket.example.com");
             ("originType", VStr "OBJECT_STORAGE");
             ("httpPort", VInt 80);
             ("protocol", VStr "HTTP");
             ("performanceConfiguration", VStr "General web delivery");
             ("cacheKeyQueryRule", VStr "include all");
             ("bucketName", VStr "test-bucket");
             ("fileExtension", VStr "jpg") ] in
  (dict_has r "fileExtension" = true
   <-> VStr "OBJECT_STORAGE" = VStr "OBJECT_STORAGE"
       /\ truthy (VStr "jpg") = true)
  /\ (dict_has r "fileExtension" = true ->
      dict_get r "fileExtension" = Some (VStr "jpg"))
  /\ (VStr "OBJECT_STORAGE" <> VStr "OBJECT_STORAGE" ->
      dict_has r "bucketName" = false /\ dict_has r "fileExtension" = false).
Proof.
  apply (add_origin_object_storage_fields
           (Fixture.remote_const (inr (VList [Fixture.cdn_record])))
           CDNManager_init (VStr "9934111111111") (VStr "/example/videos")
           (VStr "bucket.example.com")
           (object_storage_options (Some (VStr "test-bucket"))
              (Some (VStr "jpg")))
           Fixture.world0).
  reflexivity.
Defined.

(** The same arguments under the default origin type: the bucket name and
    the extensions are passed and neither is submitted. *)
Lemma add_origin_host_server_witness :
  calls_of
    (add_origin (Fixture.remote_const (inr (VList [Fixture.cdn_record])))
       CDNManager_init (VStr "9934111111111") (VStr "/example/videos")
       (VStr "origin.example.com")
       (mkOriginOptions None (Some (VStr "test.example.com")) None None
          (Some (VStr "test-bucket")) (Some (VStr "jpg")) None None))
    Fixture.world0
  = [mkCall "SoftLayer_Network_CdnMarketplace_Configuration_Mapping_Path"
       "createOriginPath"
       [VDict [ ("uniqueId", VStr "9934111111111");
                ("path", VStr "/example/videos");
                ("origin", VStr "origin.example.com");
                ("originType", VStr "HOST_SERVER");
                ("httpPort", VInt 80);
                ("protocol", VStr "HTTP");
                ("performanceConfiguration", VStr "General web delivery");
                ("cacheKeyQueryRule", VStr "include all");
                ("header", VStr "test.example.com") ]] []].
Proof. reflexivity. Qed.

Lemma add_origin_defaults_and_header_witness :
  dict_has [ ("uniqueId", VStr "9934111111111");
             ("path", VStr "/example/videos");
             ("origin", VStr "origin.example.com");
             ("originType", VStr "HOST_SERVER");
             ("httpPort", VInt 80);
             ("protocol", VStr "HTTP");
             ("performanceConfiguration", VStr "General web delivery");
             ("cacheKeyQueryRule", VStr "include all");
             ("header", VStr "test.example.com") ] "header"
  = truthy (VStr "test.example.com").
Proof.
  destruct (add_origin_defaults_and_header
              (Fixture.remote_const (inr (VList [Fixture.cdn_record])))
              CDNManager_init (VStr "9934111111111") (VStr "/example/videos")
              (VStr "origin.example.com") Fixture.world0)
    as [_ Hany].
  destruct (Hany (mkOriginOptions None (Some (VStr "test.example.com")) None
                    None (Some (VStr "test-bucket")) (Some (VStr "jpg"))
                    None None)
              _ eq_refl)
    as (_ & _ & _ & _ & _ & Hheader & _).
  exact Hheader.
Defined.

Lemma unwrap_asymmetry_witness :
  fst (get_cdn (Fixture.remote_const (inr (VList [Fixture.cdn_record])))
         CDNManager_init (VStr "9934111111111") [] Fixture.world0)
  = inr Fixture.cdn_record
  /\ fst (add_origin (Fixture.remote_const (inr (VList [Fixture.cdn_record])))
            CDNManager_init (VStr "9934111111111") (VStr "/example/videos")
            (VStr "origin.example.com") no_options Fixture.world0)
     = inr Fixture.cdn_record
  /\ fst (get_usage_metrics
            (Fixture.remote_const (inr (VList [Fixture.cdn_record])))
            Fixture.clock_running Fixture.strptime Fixture.timestamp
            CDNManager_init (VStr "9934111111111")
            (Some (VStr "2021-01-01 00:00:00"))
            (Some (VStr "2021-01-02 00:00:00")) None None Fixture.world0)
     = inr Fixture.cdn_record
  /\ fst (purge_content
            (Fixture.remote_const (inr (VList [Fixture.purge_record])))
            CDNManager_init (VStr "9779455") (VStr "/article/file.txt")
            Fixture.world0)
     = inr (VList [Fixture.purge_record])
  /\ fst (remove_origin (Fixture.remote_const (inr (VStr "true")))
            CDNManager_init (VStr "9934111111111") (VStr "/example/videos")
            Fixture.world0)
     = inr (VStr "true").
Proof.
  destruct (unwrap_asymmetry
              (Fixture.remote_const (inr (VList [Fixture.cdn_record])))
              Fixture.clock_running Fixture.strptime Fixture.timestamp
              CDNManager_init Fixture.world0)
    as (Hget_call & Hget & Hadd_call & Hadd & Husage_call & Husage & _ & _).
  destruct (unwrap_asymmetry
              (Fixture.remote_const (inr (VList [Fixture.purge_record])))
              Fixture.clock_running Fixture.strptime Fixture.timestamp
              CDNManager_init Fixture.world0)
    as (_ & _ & _ & _ & _ & _ & Hpurge & _).
  destruct (unwrap_asymmetry
              (Fixture.remote_const (inr (VStr "true")))
              Fixture.clock_running Fixture.strptime Fixture.timestamp
              CDNManager_init Fixture.world0)
    as (_ & _ & _ & _ & _ & _ & _ & Hremove).
  repeat apply conj.
  - apply (Hget (VStr "9934111111111") [] _ Fixture.cdn_record []
             (Hget_call (VStr "9934111111111") [])).
    reflexivity.
  - assert (Hvalid : ~ (arg_or (opt_origin_type no_options)
                          (VStr "HOST_SERVER") = VStr "OBJECT_STORAGE"
                        /\ truthy (arg_or (opt_bucket_name no_options) VNone)
                           = false)).
    { intros [Htype _]. discriminate Htype. }
    destruct (Hadd_call (VStr "9934111111111") (VStr "/example/videos")
                (VStr "origin.example.com") no_options Hvalid) as [r Hcall].
    apply (Hadd (VStr "9934111111111") (VStr "/example/videos")
             (VStr "origin.example.com") no_options _ Fixture.cdn_record []
             Hcall).
    reflexivity.
  - destruct (Husage_call (VStr "9934111111111")
                (Some (VStr "2021-01-01 00:00:00"))
                (Some (VStr "2021-01-02 00:00:00")) None None)
      as (t1 & t2 & Hcall).
    { right. split; [reflexivity|]. split; [reflexivity|].
      exists 1609459200000000, 1609545600000000.
      split; vm_compute; reflexivity. }
    apply (Husage (VStr "9934111111111")
             (Some (VStr "2021-01-01 00:00:00"))
             (Some (VStr "2021-01-02 00:00:00")) None None _
             Fixture.cdn_record [] Hcall).
    reflexivity.
  - apply (Hpurge (VStr "9779455") (VStr "/article/file.txt")).
  - apply (Hremove (VStr "9934111111111") (VStr "/example/videos")).
Defined.

Lemma get_usage_metrics_empty_strings_witness :
  fst (get_usage_metrics (Fixture.remote_const (inr (VList [VDict []])))
         Fixture.clock_running Fixture.strptime Fixture.timestamp
         CDNManager_init (VStr "9934111111111")
         (Some (VStr "2021-01-01 00:00:00")) (Some (VStr "")) None None
         Fixture.world0)
  = inl (ValueError
           "start_date or end_date is None, both need to be strings or None.").
Proof.
  destruct (get_usage_metrics_empty_strings
              (Fixture.remote_const (inr (VList [VDict []])))
              Fixture.clock_running Fixture.strptime Fixture.timestamp
              CDNManager_init (VStr "9934111111111") None None Fixture.world0)
    as (_ & _ & Hmixed).
  apply (Hmixed "2021-01-01 00:00:00"). discriminate.
Defined.

(** ** Further properties of the manager *)

(** What a computation does to the world: the clock readings it takes and
    the remote calls it appends; it writes nothing to the output. *)
Definition effects {A} (op : M A) (w : World) (reads : nat)
  (calls : list Call) : Prop :=
  snd (op w) = mkWorld (reads + ticks w) (trace w ++ calls) (output w).

Section Coverage.

Variable remote : list Call -> Call -> outcome value.
Variable wall_clock : nat -> datetime.
Variable strptime : string -> string -> outcome datetime.
Variable timestamp : datetime -> Z.

Lemma remote_call_effects (svc meth : string) (a : list value) (kw : dict)
  (w : World) :
  effects (remote_call remote svc meth a kw) w 0 [mkCall svc meth a kw].
Proof. reflexivity. Qed.

Lemma unwrap_effects (svc meth : string) (a : list value) (kw : dict)
  (w : World) :
  effects (r <- remote_call remote svc meth a kw ;; lift (getitem r (VInt 0)))
    w 0 [mkCall svc meth a kw].
Proof.
  unfold effects, bind, lift. rewrite remote_call_run.
  destruct (remote (trace w) (mkCall svc meth a kw)); reflexivity.
Qed.

(** The whole run of [add_origin], by the record it builds. *)
Lemma add_origin_steps (self : CDNManager)
  (unique_id path origin_address : value) (o : origin_options) (w : World) :
  add_origin remote self unique_id path origin_address o w
  = match build_origin unique_id path origin_address o with
    | inl e => (inl e, w)
    | inr r =>
        (origin <- remote_call remote (cdn_path self) "createOriginPath"
                     [VDict r] [] ;;
         lift (getitem origin (VInt 0))) w
    end.
Proof.
  unfold add_origin. unfold bind at 1. unfold lift at 1.
  destruct (build_origin unique_id path origin_address o); reflexivity.
Qed.

(** The whole run of [get_usage_metrics], by the window it resolves. *)
Lemma get_usage_metrics_steps (self : CDNManager) (unique_id : value)
  (start_date end_date : option value) (days : option Z)
  (frequency : option value) (w : World) :
  get_usage_metrics remote wall_clock strptime timestamp self unique_id
    start_date end_date days frequency w
  = match window_of strptime (arg_or start_date VNone)
            (arg_or end_date VNone)
            (match days with Some d => d | None => 30 end)
            (wall_clock (ticks w)) (wall_clock (S (ticks w))) with
    | inl e => (inl e, after_two_reads w)
    | inr window =>
        (usage <- remote_call remote (cdn_metrics self)
                    "getMappingUsageMetrics"
                    [unique_id; VInt (timestamp (fst window));
                     VInt (timestamp (snd window));
                     arg_or frequency (VStr "aggregate")] [] ;;
         lift (getitem usage (VInt 0))) (after_two_reads w)
    end.
Proof.
  unfold get_usage_metrics. unfold bind at 1. rewrite resolve_window_run.
  destruct (window_of _ _ _ _ _ _) as [e|[d1 d2]]; reflexivity.
Qed.

(** X1: no operation of the manager makes more than one round trip, none
    writes to the output, and only [get_usage_metrics] reads the clock,
    twice. [list_cdn], [get_cdn], [get_origins], [remove_origin] and
    [purge_content] make exactly one call; [add_origin] and
    [get_usage_metrics] make one or none. Earlier calls stay in the trace
    as they were. *)
Theorem manager_effects (self : CDNManager) (w : World) :
  (forall kw, exists c, effects (list_cdn remote self kw) w 0 [c])
  /\ (forall unique_id kw,
      exists c, effects (get_cdn remote self unique_id kw) w 0 [c])
  /\ (forall unique_id kw,
      exists c, effects (get_origins remote self unique_id kw) w 0 [c])
  /\ (forall unique_id path,
      exists c, effects (remove_origin remote self unique_id path) w 0 [c])
  /\ (forall unique_id path,
      exists c, effects (purge_content remote self unique_id path) w 0 [c])
  /\ (forall unique_id path origin_address o,
      exists calls,
        (length calls <= 1)%nat
        /\ effects (add_origin remote self unique_id path origin_address o)
             w 0 calls)
  /\ (forall unique_id start_date end_date days frequency,
      exists calls,
        (length calls <= 1)%nat
        /\ effects (get_usage_metrics remote wall_clock strptime timestamp
                      self unique_id start_date end_date days frequency)
             w 2 calls).
Proof.
  repeat apply conj.
  - intros kw. eexists. apply remote_call_effects.
  - intros unique_id kw. eexists. apply unwrap_effects.
  - intros unique_id kw. eexists. apply remote_call_effects.
  - intros unique_id path. eexists. apply remote_call_effects.
  - intros unique_id path. eexists. apply remote_call_effects.
  - intros unique_id path origin_address o.
    unfold add_origin. unfold effects, bind at 1, lift at 1.
    destruct (build_origin unique_id path origin_address o) as [e|r].
    + exists []. split; [simpl; lia|]. simpl. rewrite app_nil_r.
      destruct w; reflexivity.
    + eexists. split; [|apply unwrap_effects]. simpl; lia.
  - intros unique_id start_date end_date days frequency.
    unfold effects. rewrite get_usage_metrics_steps.
    destruct (window_of _ _ _ _ _ _) as [e|window].
    + exists []. split; [simpl; lia|]. simpl. rewrite app_nil_r. reflexivity.
    + eexists. split; [|rewrite unwrap_effects; reflexivity]. simpl; lia.
Qed.

(** X2: an exception raised by the remote service is the outcome of the
    operation that made the call: no operation catches or replaces it. *)
Theorem remote_errors_propagate (self : CDNManager) (w : World) (e : exn) :
  (forall kw c,
      calls_of (list_cdn remote self kw) w = [c] ->
      remote (trace w) c = inl e ->
      fst (list_cdn remote self kw w) = inl e)
  /\ (forall unique_id kw c,
      calls_of (get_cdn remote self unique_id kw) w = [c] ->
      remote (trace w) c = inl e ->
      fst (get_cdn remote self unique_id kw w) = inl e)
  /\ (forall unique_id kw c,
      calls_of (get_origins remote self unique_id kw) w = [c] ->
      remote (trace w) c = inl e ->
      fst (get_origins remote self unique_id kw w) = inl e)
  /\ (forall unique_id path origin_address o c,
      calls_of (add_origin remote self unique_id path origin_address o) w
      = [c] ->
      remote (trace w) c = inl e ->
      fst (add_origin remote self unique_id path origin_address o w) = inl e)
  /\ (forall unique_id path c,
      calls_of (remove_origin remote self unique_id path) w = [c] ->
      remote (trace w) c = inl e ->
      fst (remove_origin remote self unique_id path w) = inl e)
  /\ (forall unique_id path c,
      calls_of (purge_content remote self unique_id path) w = [c] ->
      remote (trace w) c = inl e ->
      fst (purge_content remote self unique_id path w) = inl e)
  /\ (forall unique_id start_date end_date days frequency c,
      calls_of (get_usage_metrics remote wall_clock strptime timestamp self
                  unique_id start_date end_date days frequency) w = [c] ->
      remote (trace w) c = inl e ->
      fst (get_usage_metrics remote wall_clock strptime timestamp self
             unique_id start_date end_date days frequency w) = inl e).
Proof.
  assert (Hraw : forall svc meth a kw c,
             calls_of (remote_call remote svc meth a kw) w = [c] ->
             remote (trace w) c = inl e ->
             fst (remote_call remote svc meth a kw w) = inl e).
  { intros svc meth a kw c Hcalls Hresp.
    rewrite remote_call_calls in Hcalls. injection Hcalls as <-.
    rewrite remote_call_run. exact Hresp. }
  repeat apply conj.
  - intros kw c. apply Hraw.
  - intros unique_id kw c Hcalls Hresp. unfold get_cdn in *.
    destruct (call_then_unwrap remote (cdn_configuration self)
                "listDomainMappingByUniqueId" [unique_id] kw w)
      as [Hone Hres].
    cbv zeta in Hone, Hres. rewrite Hone in Hcalls. injection Hcalls as <-.
    rewrite Hres, Hresp. reflexivity.
  - intros unique_id kw c. apply Hraw.
  - intros unique_id path origin_address o c Hcalls Hresp.
    pose proof (add_origin_run remote self unique_id path origin_address o w)
      as Hrun.
    cbv zeta in Hrun.
    destruct (build_origin unique_id path origin_address o) as [e'|r].
    + destruct Hrun as [_ Hnone]. rewrite Hnone in Hcalls. discriminate.
    + destruct Hrun as [Hone Hres]. rewrite Hone in Hcalls.
      injection Hcalls as <-. rewrite Hres, Hresp. reflexivity.
  - intros unique_id path c. apply Hraw.
  - intros unique_id path c. apply Hraw.
  - intros unique_id start_date end_date days frequency c Hcalls Hresp.
    pose proof (get_usage_metrics_run remote wall_clock strptime timestamp
                  self unique_id start_date end_date days frequency w) as Hrun.
    cbv zeta in Hrun.
    destruct (window_of _ _ _ _ _ _) as [e'|window].
    + destruct Hrun as [_ Hnone]. rewrite Hnone in Hcalls. discriminate.
    + destruct Hrun as [Hone Hres]. rewrite Hone in Hcalls.
      injection Hcalls as <-. rewrite Hres, Hresp. reflexivity.
Qed.

(** X3: the bucket-name validation is the only thing that keeps
    [add_origin] from calling the service: it makes no call exactly when
    the origin type is OBJECT_STORAGE and the bucket name is falsy, and in
    every other case it makes the one call [createOriginPath] with one
    record as its only argument. *)
Theorem add_origin_calls_unless_bucket_missing (self : CDNManager)
  (unique_id path origin_address : value) (o : origin_options) (w : World) :
  let op := add_origin remote self unique_id path origin_address o in
  let origin_type := arg_or (opt_origin_type o) (VStr "HOST_SERVER") in
  let bucket_name := arg_or (opt_bucket_name o) VNone in
  (calls_of op w = []
   <-> origin_type = VStr "OBJECT_STORAGE" /\ truthy bucket_name = false)
  /\ (calls_of op w <> [] ->
      exists r,
        calls_of op w
        = [mkCall (cdn_path self) "createOriginPath" [VDict r] []]).
Proof.
  intros op origin_type bucket_name.
  pose proof (add_origin_run remote self unique_id path origin_address o w)
    as Hrun.
  cbv zeta in Hrun. fold op in Hrun.
  assert (Hbuild : (exists e, build_origin unique_id path origin_address o
                              = inl e)
                   <-> origin_type = VStr "OBJECT_STORAGE"
                       /\ truthy bucket_name = false).
  { unfold build_origin. fold origin_type bucket_name.
    rewrite <- (eq_str_true origin_type "OBJECT_STORAGE").
    destruct (eq_str origin_type "OBJECT_STORAGE"), (truthy bucket_name),
      (truthy (arg_or (opt_file_extensions o) VNone));
      split;
      solve [ intros [e He]; discriminate He
            | intros [? ?]; discriminate
            | intros _; split; reflexivity
            | intros _; eexists; reflexivity ]. }
  destruct (build_origin unique_id path origin_address o) as [e|r].
  - destruct Hrun as [_ Hnone]. rewrite Hnone. split.
    + split; [intros _; apply Hbuild; eexists; reflexivity | reflexivity].
    + intros Hne. contradiction Hne. reflexivity.
  - destruct Hrun as [Hone _]. rewrite Hone. split.
    + split; [discriminate|].
      intros Hmissing. apply Hbuild in Hmissing as [e He]. discriminate He.
    + intros _. exists r. reflexivity.
Qed.

(** The keys of the record [build_origin] returns, in order. *)
Definition origin_keys (header origin_type file_extensions : value)
  : list string :=
  ["uniqueId"; "path"; "origin"; "originType"; "httpPort"; "protocol";
   "performanceConfiguration"; "cacheKeyQueryRule"]
  ++ (if truthy header then ["header"] else [])
  ++ (if eq_str origin_type "OBJECT_STORAGE"
      then "bucketName" :: (if truthy file_extensions
                            then ["fileExtension"] else [])
      else []).

(** X4: the record [add_origin] submits has the eight base fields, then
    [header], [bucketName] and [fileExtension] when they apply, and no
    other field; no key occurs twice. *)
Theorem add_origin_record_keys (self : CDNManager)
  (unique_id path origin_address : value) (o : origin_options) (w : World)
  (r : dict) :
  calls_of (add_origin remote self unique_id path origin_address o) w
  = [mkCall (cdn_path self) "createOriginPath" [VDict r] []] ->
  map fst r
  = origin_keys (arg_or (opt_header o) VNone)
      (arg_or (opt_origin_type o) (VStr "HOST_SERVER"))
      (arg_or (opt_file_extensions o) VNone)
  /\ NoDup (map fst r).
Proof.
  intros Hcalls. apply add_origin_submitted in Hcalls.
  unfold build_origin in Hcalls. unfold origin_keys.
  destruct (truthy (arg_or (opt_header o) VNone)),
    (eq_str (arg_or (opt_origin_type o) (VStr "HOST_SERVER"))
       "OBJECT_STORAGE"),
    (truthy (arg_or (opt_bucket_name o) VNone)),
    (truthy (arg_or (opt_file_extensions o) VNone));
    try discriminate Hcalls;
    injection Hcalls as <-;
    (split; [reflexivity|]);
    simpl;
    repeat (constructor;
            [simpl; intros Hin;
             repeat (destruct Hin as [Hin|Hin]; [discriminate Hin|]);
             exact Hin|]);
    constructor.
Qed.

(** X5: the record [add_origin] submits carries [unique_id], [path] and
    [origin_address] as they were passed, and, for the origin type
    OBJECT_STORAGE, the bucket name that was passed, which is then truthy. *)
Theorem add_origin_required_fields (self : CDNManager)
  (unique_id path origin_address : value) (o : origin_options) (w : World)
  (r : dict) :
  calls_of (add_origin remote self unique_id path origin_address o) w
  = [mkCall (cdn_path self) "createOriginPath" [VDict r] []] ->
  dict_get r "uniqueId" = Some unique_id
  /\ dict_get r "path" = Some path
  /\ dict_get r "origin" = Some origin_address
  /\ (arg_or (opt_origin_type o) (VStr "HOST_SERVER") = VStr "OBJECT_STORAGE" ->
      dict_get r "bucketName" = Some (arg_or (opt_bucket_name o) VNone)
      /\ truthy (arg_or (opt_bucket_name o) VNone) = true).
Proof.
  intros Hcalls. apply add_origin_submitted in Hcalls.
  pose proof (build_origin_fields unique_id path origin_address o r Hcalls)
    as Hfields.
  cbv zeta in Hfields.
  destruct Hfields as (Hid & Hpath & Horigin & _ & _ & _ & _ & _ & _
                       & Hbucket & _).
  repeat split; try assumption.
  - apply eq_str_true in H. rewrite H in Hbucket. exact Hbucket.
  - unfold build_origin in Hcalls. apply eq_str_true in H.
    rewrite H in Hcalls.
    destruct (truthy (arg_or (opt_bucket_name o) VNone));
      [reflexivity | discriminate Hcalls].
Qed.

(** X6: when the answer to [createOriginPath] or to
    [getMappingUsageMetrics] is the empty list, [add_origin] and
    [get_usage_metrics] raise [IndexError]; the call has been made and
    stays in the trace. *)
Theorem unwrap_empty_answer_after_call (self : CDNManager) (w : World) :
  (forall unique_id path origin_address o c,
      calls_of (add_origin remote self unique_id path origin_address o) w
      = [c] ->
      remote (trace w) c = inr (VList []) ->
      add_origin remote self unique_id path origin_address o w
      = (inl (IndexError "list index out of range"),
         mkWorld (ticks w) (trace w ++ [c]) (output w)))
  /\ (forall unique_id start_date end_date days frequency c,
      calls_of (get_usage_metrics remote wall_clock strptime timestamp self
                  unique_id start_date end_date days frequency) w = [c] ->
      remote (trace w) c = inr (VList []) ->
      get_usage_metrics remote wall_clock strptime timestamp self
        unique_id start_date end_date days frequency w
      = (inl (IndexError "list index out of range"),
         mkWorld (S (S (ticks w))) (trace w ++ [c]) (output w))).
Proof.
  split.
  - intros unique_id path origin_address o c Hcalls Hresp.
    unfold calls_of in Hcalls. rewrite add_origin_steps in *.
    destruct (build_origin unique_id path origin_address o) as [e|r].
    + simpl in Hcalls. rewrite skipn_whole in Hcalls. discriminate.
    + destruct (call_then_unwrap remote (cdn_path self) "createOriginPath"
                  [VDict r] [] w) as [Hone _].
      cbv zeta in Hone. unfold calls_of in Hone. rewrite Hone in Hcalls.
      injection Hcalls as <-.
      unfold bind, lift. rewrite remote_call_run, Hresp. reflexivity.
  - intros unique_id start_date end_date days frequency c Hcalls Hresp.
    pose proof (get_usage_metrics_run remote wall_clock strptime timestamp
                  self unique_id start_date end_date days frequency w) as Hrun.
    cbv zeta in Hrun. rewrite get_usage_metrics_steps.
    destruct (window_of _ _ _ _ _ _) as [e|window].
    + destruct Hrun as [_ Hnone]. rewrite Hnone in Hcalls. discriminate.
    + destruct Hrun as [Hone _]. rewrite Hone in Hcalls.
      injection Hcalls as <-.
      unfold bind, lift. rewrite remote_call_run.
      unfold after_two_reads. cbn [trace ticks output].
      unfold metrics_call in Hresp. rewrite Hresp. reflexivity.
Qed.

(** X8: a supplied date that is not a string is not a parse error: with
    both dates truthy, a [start_date] that is not a [str] makes
    [get_usage_metrics] raise [TypeError], and so does an [end_date] that is
    not a [str] once [start_date] has parsed; no remote call is made. *)
Theorem get_usage_metrics_non_string_date (self : CDNManager)
  (unique_id start_date end_date : value) (days : option Z)
  (frequency : option value) (w : World) :
  truthy start_date = true ->
  truthy end_date = true ->
  let op := get_usage_metrics remote wall_clock strptime timestamp self
              unique_id (Some start_date) (Some end_date) days frequency in
  ((forall s, start_date <> VStr s) ->
   fst (op w) = inl (TypeError ("strptime() argument 1 must be str, not "
                                  ++ type_name start_date))
   /\ calls_of op w = [])
  /\ (forall s d,
      start_date = VStr s ->
      strptime s "%Y-%m-%d %H:%M:%S" = inr d ->
      (forall s', end_date <> VStr s') ->
      fst (op w) = inl (TypeError ("strptime() argument 1 must be str, not "
                                     ++ type_name end_date))
      /\ calls_of op w = []).
Proof.
  intros Hstart Hend op.
  assert (Hnot : forall v fmt, (forall s, v <> VStr s) ->
             strptime_value strptime v fmt
             = inl (TypeError ("strptime() argument 1 must be str, not "
                                 ++ type_name v))).
  { intros v fmt Hv. destruct v; try reflexivity.
    contradiction (Hv s). reflexivity. }
  pose proof (get_usage_metrics_run remote wall_clock strptime timestamp self
                unique_id (Some start_date) (Some end_date) days frequency w)
    as Hrun.
  cbv zeta in Hrun. fold op in Hrun. unfold window_of in Hrun.
  simpl arg_or in Hrun. rewrite Hstart, Hend in Hrun. simpl andb in Hrun.
  cbv iota in Hrun.
  split.
  - intros Hv. rewrite (Hnot start_date _ Hv) in Hrun.
    destruct Hrun as [Hres Hcalls]. rewrite Hres.
    split; [reflexivity | exact Hcalls].
  - intros s d Hs Hparse Hv.
    rewrite (Hnot end_date _ Hv) in Hrun. subst start_date.
    simpl strptime_value in Hrun. rewrite Hparse in Hrun.
    destruct Hrun as [Hres Hcalls]. rewrite Hres.
    split; [reflexivity | exact Hcalls].
Qed.

(** *** The [cdn purge] command *)

(** X9: whatever the service answers, the command makes the one call
    [createPurge] with its two arguments as strings, reads no clock, and
    writes either nothing, when it raises, or one table with the four
    columns and one row of four cells, when it returns. *)
Theorem cli_all_or_nothing (unique_id path : string) (w : World) :
  let c := mkCall "SoftLayer_Network_CdnMarketplace_Configuration_Cache_Purge"
             "createPurge" [VStr unique_id; VStr path] [] in
  let run := cli remote unique_id path w in
  trace (snd run) = (trace w ++ [c])%list
  /\ ticks (snd run) = ticks w
  /\ match fst run with
     | inl _ => output (snd run) = output w
     | inr _ =>
         exists date path' saved status,
           output (snd run)
           = (output w ++ [mkTable ["Date"; "Path"; "Saved"; "Status"]
                             [[date; path'; saved; status]]])%list
     end.
Proof.
  intros c run. subst run. unfold cli, purge_content, bind.
  rewrite remote_call_run. cbn [cdn_purge CDNManager_init]. fold c.
  destruct (remote (trace w) c) as [e|answer];
    [repeat split; reflexivity|].
  unfold lift.
  destruct (getitem answer (VStr "date")) as [e|date];
    [repeat split; reflexivity|].
  destruct (getitem answer (VStr "path")) as [e|path'];
    [repeat split; reflexivity|].
  destruct (getitem answer (VStr "saved")) as [e|saved];
    [repeat split; reflexivity|].
  destruct (getitem answer (VStr "status")) as [e|status];
    [repeat split; reflexivity|].
  repeat split. exists date, path', saved, status. reflexivity.
Qed.

(** X10: when [createPurge] answers with a record, the command returns
    exactly when the record has the four keys date, path, saved and
    status; when one is missing it raises [KeyError] for a missing key and
    writes nothing. *)
Theorem cli_record_needs_four_fields (unique_id path : string) (w : World)
  (record : dict) :
  remote (trace w)
    (mkCall "SoftLayer_Network_CdnMarketplace_Configuration_Cache_Purge"
       "createPurge" [VStr unique_id; VStr path] [])
  = inr (VDict record) ->
  let run := cli remote unique_id path w in
  let present :=
    dict_has record "date" && dict_has record "path"
    && dict_has record "saved" && dict_has record "status" in
  (present = true -> fst run = inr tt)
  /\ (present = false ->
      exists k, dict_get record k = None
                /\ In k ["date"; "path"; "saved"; "status"]
                /\ fst run = inl (KeyError (VStr k))
                /\ output (snd run) = output w).
Proof.
  intros Hresp run present. subst run present.
  unfold cli, purge_content, bind.
  rewrite remote_call_run. cbn [cdn_purge CDNManager_init]. rewrite Hresp.
  unfold lift, getitem, dict_has.
  destruct (dict_get record "date") eqn:Hdate.
  2:{ split; [discriminate|]. intros _. exists "date". simpl. auto 6. }
  destruct (dict_get record "path") eqn:Hpath.
  2:{ split; [discriminate|]. intros _. exists "path". simpl. auto 6. }
  destruct (dict_get record "saved") eqn:Hsaved.
  2:{ split; [discriminate|]. intros _. exists "saved". simpl. auto 7. }
  destruct (dict_get record "status") eqn:Hstatus.
  2:{ split; [discriminate|]. intros _. exists "status". simpl. auto 8. }
  split; [reflexivity | discriminate].
Qed.

(** X11: an exception raised by [createPurge] is the outcome of the
    command, and nothing is written. *)
Theorem cli_remote_error (unique_id path : string) (w : World) (e : exn) :
  remote (trace w)
    (mkCall "SoftLayer_Network_CdnMarketplace_Configuration_Cache_Purge"
       "createPurge" [VStr unique_id; VStr path] [])
  = inl e ->
  fst (cli remote unique_id path w) = inl e
  /\ output (snd (cli remote unique_id path w)) = output w.
Proof.
  intros Hresp. unfold cli, purge_content, bind.
  rewrite remote_call_run. cbn [cdn_purge CDNManager_init]. rewrite Hresp.
  split; reflexivity.
Qed.

End Coverage.


(** ** The further properties on the test doubles *)

Definition api_error : exn :=
  OtherError "SoftLayerAPIError" "SoftLayer_Exception_NotFound".

Lemma remote_errors_propagate_witness :
  fst (get_cdn (Fixture.remote_const (inl api_error)) CDNManager_init
         (VStr "9934111111111") [] Fixture.world0)
  = inl api_error
  /\ fst (get_usage_metrics (Fixture.remote_const (inl api_error))
            Fixture.clock_running Fixture.strptime Fixture.timestamp
            CDNManager_init (VStr "9934111111111") None None (Some 7) None
            Fixture.world0)
     = inl api_error.
Proof.
  destruct (remote_errors_propagate (Fixture.remote_const (inl api_error))
              Fixture.clock_running Fixture.strptime Fixture.timestamp
              CDNManager_init Fixture.world0 api_error)
    as (_ & Hget & _ & _ & _ & _ & Husage).
  split.
  - apply (Hget (VStr "9934111111111") []
             (mkCall "Network_CdnMarketplace_Configuration_Mapping"
                "listDomainMappingByUniqueId" [VStr "9934111111111"] []));
      reflexivity.
  - apply (Husage (VStr "9934111111111") None None (Some 7) None
             (mkCall "Network_CdnMarketplace_Metrics" "getMappingUsageMetrics"
                [VStr "9934111111111"; VInt 1613995200; VInt 1614600000;
                 VStr "aggregate"] []));
      reflexivity.
Defined.

Lemma add_origin_calls_unless_bucket_missing_witness :
  exists r,
    calls_of
      (add_origin (Fixture.remote_const (inr (VList [Fixture.cdn_record])))
         CDNManager_init (VStr "9934111111111") (VStr "/example/videos")
         (VStr "bucket.example.com")
         (object_storage_options (Some (VStr "test-bucket")) None))
      Fixture.world0
    = [mkCall "SoftLayer_Network_CdnMarketplace_Configuration_Mapping_Path"
         "createOriginPath" [VDict r] []].
Proof.
  destruct (add_origin_calls_unless_bucket_missing
              (Fixture.remote_const (inr (VList [Fixture.cdn_record])))
              CDNManager_init (VStr "9934111111111") (VStr "/example/videos")
              (VStr "bucket.example.com")
              (object_storage_options (Some (VStr "test-bucket")) None)
              Fixture.world0)
    as [_ Hcall].
  apply Hcall. discriminate.
Defined.

Lemma add_origin_record_keys_witness :
  map fst
    [ ("uniqueId", VStr "9934111111111");
      ("path", VStr "/example/videos");
      ("origin", VStr "bucket.example.com");
      ("originType", VStr "OBJECT_STORAGE");
      ("httpPort", VInt 80);
      ("protocol", VStr "HTTP");
      ("performanceConfiguration", VStr "General web delivery");
      ("cacheKeyQueryRule", VStr "include all");
      ("bucketName", VStr "test-bucket");
      ("fileExtension", VStr "jpg") ]
  = origin_keys VNone (VStr "OBJECT_STORAGE") (VStr "jpg")
  /\ NoDup
       (map fst
          [ ("uniqueId", VStr "9934111111111");
            ("path", VStr "/example/videos");
            ("origin", VStr "bucket.example.com");
            ("originType", VStr "OBJECT_STORAGE");
            ("httpPort", VInt 80);
            ("protocol", VStr "HTTP");
            ("performanceConfiguration", VStr "General web delivery");
            ("cacheKeyQueryRule", VStr "include all");
            ("bucketName", VStr "test-bucket");
            ("fileExtension", VStr "jpg") ]).
Proof.
  apply (add_origin_record_keys
           (Fixture.remote_const (inr (VList [Fixture.cdn_record])))
           CDNManager_init (VStr "9934111111111") (VStr "/example/videos")
           (VStr "bucket.example.com")
           (object_storage_options (Some (VStr "test-bucket"))
              (Some (VStr "jpg")))
           Fixture.world0).
  reflexivity.
Defined.

Lemma add_origin_required_fields_witness :
  dict_get
    [ ("uniqueId", VStr "9934111111111");
      ("path", VStr "/example/videos");
      ("origin", VStr "bucket.example.com");
      ("originType", VStr "OBJECT_STORAGE");
      ("httpPort", VInt 80);
      ("protocol", VStr "HTTP");
      ("performanceConfiguration", VStr "General web delivery");
      ("cacheKeyQueryRule", VStr "include all");
      ("bucketName", VStr "test-bucket") ] "bucketName"
  = Some (VStr "test-bucket")
  /\ truthy (VStr "test-bucket") = true.
Proof.
  destruct (add_origin_required_fields
              (Fixture.remote_const (inr (VList [Fixture.cdn_record])))
              CDNManager_init (VStr "9934111111111") (VStr "/example/videos")
              (VStr "bucket.example.com")
              (object_storage_options (Some (VStr "test-bucket")) None)
              Fixture.world0 _ eq_refl)
    as (_ & _ & _ & Hbucket).
  apply Hbucket. reflexivity.
Defined.

Lemma unwrap_empty_answer_after_call_witness :
  add_origin (Fixture.remote_const (inr (VList []))) CDNManager_init
    (VStr "9934111111111") (VStr "/example/videos")
    (VStr "origin.example.com") no_options Fixture.world0
  = (inl (IndexError "list index out of range"),
     mkWorld 0
       [mkCall "SoftLayer_Network_CdnMarketplace_Configuration_Mapping_Path"
          "createOriginPath"
          [VDict [ ("uniqueId", VStr "9934111111111");
                   ("path", VStr "/example/videos");
                   ("origin", VStr "origin.example.com");
                   ("originType", VStr "HOST_SERVER");
                   ("httpPort", VInt 80);
                   ("protocol", VStr "HTTP");
                   ("performanceConfiguration", VStr "General web delivery");
                   ("cacheKeyQueryRule", VStr "include all") ]] []]
       []).
Proof.
  destruct (unwrap_empty_answer_after_call
              (Fixture.remote_const (inr (VList [])))
              Fixture.clock_running Fixture.strptime Fixture.timestamp
              CDNManager_init Fixture.world0)
    as [Hadd _].
  apply (Hadd (VStr "9934111111111") (VStr "/example/videos")
           (VStr "origin.example.com") no_options);
    reflexivity.
Defined.

Lemma get_usage_metrics_non_string_date_witness :
  fst (get_usage_metrics (Fixture.remote_const (inr (VList [VDict []])))
         Fixture.clock_running Fixture.strptime Fixture.timestamp
         CDNManager_init (VStr "9934111111111")
         (Some (VInt 20210101)) (Some (VStr "2021-01-02 00:00:00"))
         None None Fixture.world0)
  = inl (TypeError "strptime() argument 1 must be str, not int").
Proof.
  destruct (get_usage_metrics_non_string_date
              (Fixture.remote_const (inr (VList [VDict []])))
              Fixture.clock_running Fixture.strptime Fixture.timestamp
              CDNManager_init (VStr "9934111111111")
              (VInt 20210101) (VStr "2021-01-02 00:00:00")
              None None Fixture.world0 eq_refl eq_refl)
    as [Hstart _].
  apply Hstart. discriminate.
Defined.

Lemma cli_record_needs_four_fields_witness :
  exists k,
    dict_get [("date", VStr "2018-07-18T20:00:00-06:00");
              ("path", VStr "/article/file.txt")] k = None
    /\ In k ["date"; "path"; "saved"; "status"]
    /\ fst (cli (Fixture.remote_const
                   (inr (VDict [("date", VStr "2018-07-18T20:00:00-06:00");
                                ("path", VStr "/article/file.txt")])))
              "9779455" "/article/file.txt" Fixture.world0)
       = inl (KeyError (VStr k))
    /\ output
         (snd (cli (Fixture.remote_const
                      (inr (VDict [("date", VStr "2018-07-18T20:00:00-06:00");
                                   ("path", VStr "/article/file.txt")])))
                 "9779455" "/article/file.txt" Fixture.world0))
       = output Fixture.world0.
Proof.
  destruct (cli_record_needs_four_fields
              (Fixture.remote_const
                 (inr (VDict [("date", VStr "2018-07-18T20:00:00-06:00");
                              ("path", VStr "/article/file.txt")])))
              "9779455" "/article/file.txt" Fixture.world0
              [("date", VStr "2018-07-18T20:00:00-06:00");
               ("path", VStr "/article/file.txt")] eq_refl)
    as [_ Hmissing].
  apply Hmissing. reflexivity.
Defined.

Lemma cli_remote_error_witness :
  fst (cli (Fixture.remote_const (inl api_error))
         "9779455" "/article/file.txt" Fixture.world0)
  = inl api_error
  /\ output (snd (cli (Fixture.remote_const (inl api_error))
                    "9779455" "/article/file.txt" Fixture.world0))
     = output Fixture.world0.
Proof.
  apply (cli_remote_error (Fixture.remote_const (inl api_error))
           "9779455" "/article/file.txt" Fixture.world0 api_error).
  reflexivity.
Defined.
